(** * Node state and command relay of the grid node (app/main)

    A shallow embedding of [app/main/model_manager.py] and of the [/cmd]
    handler of [app/main/events.py].  Python code that mutates module
    globals and may raise is written in a state-and-exception monad; the
    dictionaries of the source are finite maps. *)

From Stdlib Require Import Strings.Ascii Strings.String Strings.Byte.
From stdpp Require Import gmap strings list fin_maps.


(** ** Python exceptions and the monad of effectful code *)

(** Only the position of an exception in the class hierarchy matters to
    the handlers of the source: [IntegrityError] is a subclass of
    [SQLAlchemyError]; every other subclass of [SQLAlchemyError] is
    [SQLAlchemyError_other]; every remaining subclass of [Exception]
    (AttributeError, KeyError, binascii.Error, ...) is [PyException]. *)
Inductive ExcClass :=
| IntegrityError
| SQLAlchemyError_other
| PyException.

(** [exc_str e] is [str(e)]. *)
Record Exc := mkExc { exc_class : ExcClass; exc_str : string }.

(** [isinstance(e, SQLAlchemyError)] *)
Definition is_SQLAlchemyError (e : Exc) : bool :=
  match exc_class e with
  | IntegrityError | SQLAlchemyError_other => true
  | PyException => false
  end.

(** [type(e) is IntegrityError] *)
Definition type_is_IntegrityError (e : Exc) : bool :=
  match exc_class e with
  | IntegrityError => true
  | _ => false
  end.

(** [isinstance(e, Exception)]: every modelled exception is one. *)
Definition is_Exception (e : Exc) : bool := true.

Inductive Outcome (A : Type) :=
| Return (a : A)
| Raise (e : Exc).
Arguments Return {A} a.
Arguments Raise {A} e.

(** A statement run from state [s] ends normally or by raising; in both
    cases the mutations made so far are kept. *)
Definition Py (St A : Type) : Type := St → Outcome A * St.

Section Monad.
Context {St : Type}.

Definition ret {A} (a : A) : Py St A := λ s, (Return a, s).

Definition bind {A B} (m : Py St A) (f : A → Py St B) : Py St B :=
  λ s, match m s with
       | (Return a, s') => f a s'
       | (Raise e, s') => (Raise e, s')
       end.

Definition raise {A} (e : Exc) : Py St A := λ s, (Raise e, s).

Definition gets {A} (f : St → A) : Py St A := λ s, (Return (f s), s).

Definition modify (f : St → St) : Py St unit := λ s, (Return tt, f s).

(** [try: body  except C as e: handler]: [C] is the class test. *)
Definition try_except {A} (body : Py St A) (C : Exc → bool)
    (handler : Exc → Py St A) : Py St A :=
  λ s, match body s with
       | (Return a, s') => (Return a, s')
       | (Raise e, s') => if C e then handler e s' else (Raise e, s')
       end.

(** [for x in xs: f(x)] *)
Fixpoint for_each {A} (xs : list A) (f : A → Py St unit) : Py St unit :=
  match xs with
  | [] => ret tt
  | x :: rest => bind (f x) (λ _, for_each rest f)
  end.
End Monad.

#[global] Instance Py_ret {St} : MRet (Py St) := @ret St.
#[global] Instance Py_bind {St} : MBind (Py St) := λ A B f m, bind m f.

(** [x = m; k] and, through the instances above, [m;; k]. *)
Notation "'let*' x ':=' m 'in' k" := (bind m (λ x, k))
  (at level 10, x name, m at level 100, k at level 200).

(** ** Values *)

Abbreviation Bytes := (list byte).

(** A deserialized model: a plain artifact, or a Plan that names its
    state tensors ([model.state_ids]). *)
Inductive Model :=
| PlainModel (body : Bytes)
| Plan (plan_state_ids : list string) (body : Bytes).

(** [isinstance(model, sy.Plan)] *)
Definition isinstance_Plan (m : Model) : bool :=
  match m with
  | Plan _ _ => true
  | PlainModel _ => false
  end.

(** [model.state_ids]; only read under [isinstance(model, sy.Plan)]. *)
Definition state_ids (m : Model) : list string :=
  match m with
  | Plan ids _ => ids
  | PlainModel _ => []
  end.

(** The dicts returned by the model manager, and the Python values that
    flow through [save_model_to_cache] and the cache. *)
Inductive PyVal :=
| VNone
| VBytes (b : Bytes)
| VModel (m : Model)
| VDict (r : Result)
with Result :=
| Success_message (message : string)      (* {"success": True, "message": _} *)
| Success_model (model : PyVal)           (* {"success": True, "model": _} *)
| Success_models (models : list string)   (* {"success": True, "models": _} *)
| Failure (error : string).               (* {"success": False, "error": _} *)

(** [result["success"]] *)
Definition success (r : Result) : bool :=
  match r with
  | Failure _ => false
  | _ => true
  end.

(** Truth value of a Python object in [if x:]. *)
Definition truthy (v : PyVal) : bool :=
  match v with
  | VNone => false
  | VBytes b => negb (bool_decide (b = []))
  | VModel _ => true
  | VDict _ => true
  end.

(** ** The model manager: [app/main/model_manager.py] *)

Module ModelManager.

(** Rows of the two tables, [TorchModel(id, model)] and
    [TorchTensor(id, object)]. *)
Record TorchModel := mkTorchModel { model_row_id : string; model_row_model : Bytes }.
Record TorchTensor := mkTorchTensor { tensor_row_id : string; tensor_row_object : Bytes }.

(** What a session holds between [add]/[delete] and [commit]. *)
Inductive Staged :=
| InsertModel (row : TorchModel)
| InsertTensor (row : TorchTensor)
| DeleteModel (row : TorchModel).

(** Every call made on [db.session], in order: the instrumentation by
    which an access to the persistent store is observed. *)
Inductive DbCall :=
| SessionRemove
| SessionAdd
| SessionAddAll
| SessionDelete
| SessionCommit
| QueryModelGet (model_id : string)
| QueryModelIds
| QueryTensorGet (tensor_id : string).

(** The process state the module works on: the global [model_cache], the
    two durable tables with the session in front of them, and the object
    store of the local worker. *)
Record Node := mkNode {
  model_cache : gmap string PyVal;
  torch_model : gmap string Bytes;
  torch_tensor : gmap string Bytes;
  session : list Staged;
  db_calls : list DbCall;
  objects : gmap string Bytes
}.

Definition set_model_cache (f : gmap string PyVal → gmap string PyVal) (s : Node) : Node :=
  mkNode (f (model_cache s)) (torch_model s) (torch_tensor s) (session s)
         (db_calls s) (objects s).

Definition set_session (f : list Staged → list Staged) (s : Node) : Node :=
  mkNode (model_cache s) (torch_model s) (torch_tensor s) (f (session s))
         (db_calls s) (objects s).

Definition set_tables (ms ts : gmap string Bytes) (s : Node) : Node :=
  mkNode (model_cache s) ms ts (session s) (db_calls s) (objects s).

Definition set_objects (f : gmap string Bytes → gmap string Bytes) (s : Node) : Node :=
  mkNode (model_cache s) (torch_model s) (torch_tensor s) (session s)
         (db_calls s) (f (objects s)).

Definition log_call (c : DbCall) (s : Node) : Node :=
  mkNode (model_cache s) (torch_model s) (torch_tensor s) (session s)
         (db_calls s ++ [c]) (objects s).

(** *** The persistence layer and the object store

    Modelled from the spec: [persistence/models.py] ([db], [TorchModel],
    [TorchTensor]) and [local_worker_utils.py] ([get_obj],
    [register_obj]) are not part of the sources at hand.  The store is two
    durable tables, Models(id unique, blob) and Tensors(id unique,
    payload); persisting a second record with an existing id is rejected,
    not overwritten.  The object store is a mapping from identifier to
    object with register and lookup. *)

(** The rows staged in the session reach the tables together or not at
    all; an insert whose id is taken violates uniqueness. *)
Fixpoint flush (ops : list Staged) (ms ts : gmap string Bytes)
    : option (gmap string Bytes * gmap string Bytes) :=
  match ops with
  | [] => Some (ms, ts)
  | InsertModel r :: rest =>
      match ms !! model_row_id r with
      | Some _ => None
      | None => flush rest (<[model_row_id r := model_row_model r]> ms) ts
      end
  | InsertTensor r :: rest =>
      match ts !! tensor_row_id r with
      | Some _ => None
      | None => flush rest ms (<[tensor_row_id r := tensor_row_object r]> ts)
      end
  | DeleteModel r :: rest => flush rest (delete (model_row_id r) ms) ts
  end.

(** [db.session.remove()]: the session and whatever it staged are dropped. *)
Definition session_remove : Py Node unit :=
  modify (λ s, set_session (λ _, []) (log_call SessionRemove s)).

(** [db.session.add(row)] *)
Definition session_add (row : TorchModel) : Py Node unit :=
  modify (λ s, set_session (λ p, p ++ [InsertModel row]) (log_call SessionAdd s)).

(** [db.session.add_all(rows)] *)
Definition session_add_all (rows : list TorchTensor) : Py Node unit :=
  modify (λ s, set_session (λ p, p ++ (InsertTensor <$> rows)) (log_call SessionAddAll s)).

(** [db.session.delete(row)]; [None] is not a mapped instance
    (UnmappedInstanceError, a subclass of SQLAlchemyError). *)
Definition session_delete (row : option TorchModel) : Py Node unit :=
  match row with
  | Some r =>
      modify (λ s, set_session (λ p, p ++ [DeleteModel r]) (log_call SessionDelete s))
  | None =>
      modify (log_call SessionDelete);;
      raise (mkExc SQLAlchemyError_other "Class 'builtins.NoneType' is not mapped")
  end.

(** [db.session.commit()]: on a uniqueness violation the transaction is
    rolled back and IntegrityError is raised.  What is staged is dropped
    either way; that the library's session then refuses further use
    until [remove()] or [rollback()] is not modelled. *)
Definition session_commit : Py Node unit :=
  λ s,
    let s1 := log_call SessionCommit s in
    match flush (session s1) (torch_model s1) (torch_tensor s1) with
    | Some (ms, ts) => (Return tt, set_session (λ _, []) (set_tables ms ts s1))
    | None =>
        (Raise (mkExc IntegrityError "UNIQUE constraint failed"),
         set_session (λ _, []) s1)
    end.

(** [db.session.query(TorchModel).get(model_id)]: the row or [None]. *)
Definition query_TorchModel_get (model_id : string) : Py Node (option TorchModel) :=
  λ s, (Return (mkTorchModel model_id <$> torch_model s !! model_id),
        log_call (QueryModelGet model_id) s).

(** [db.session.query(TorchModel.id).all()] *)
Definition query_TorchModel_ids : Py Node (list string) :=
  λ s, (Return ((map_to_list (torch_model s)).*1), log_call QueryModelIds s).

(** [db.session.query(TorchTensor).get(state_id)] *)
Definition query_TorchTensor_get (state_id : string) : Py Node (option TorchTensor) :=
  λ s, (Return (mkTorchTensor state_id <$> torch_tensor s !! state_id),
        log_call (QueryTensorGet state_id) s).

(** [result.object], an AttributeError when [result] is [None]. *)
Definition attr_object (result : option TorchTensor) : Py Node Bytes :=
  match result with
  | Some r => ret (tensor_row_object r)
  | None => raise (mkExc PyException "'NoneType' object has no attribute 'object'")
  end.

(** [get_obj(id)]: the object registered under [id]; looking up an id
    that is not registered raises. *)
Definition get_obj (obj_id : string) : Py Node Bytes :=
  λ s, match objects s !! obj_id with
       | Some t => (Return t, s)
       | None => (Raise (mkExc PyException ("Object not found: " +:+ obj_id)), s)
       end.

(** [tensor.data]: the payload of a tensor is the tensor itself. *)
Definition tensor_data (tensor : Bytes) : Bytes := tensor.

(** [register_obj(obj, id)] *)
Definition register_obj (obj : Bytes) (obj_id : string) : Py Node unit :=
  modify (set_objects (λ o, <[obj_id := obj]> o)).

Section WithCodec.

(** [sy.serde.deserialize] on a byte string: the codec is external; it
    yields a model or fails. *)
Variable deserialize : Bytes → option Model.

(** [sy.serde.deserialize(v)]: only byte strings decode. *)
Definition serde_deserialize (v : PyVal) : Py Node Model :=
  match v with
  | VBytes b =>
      match deserialize b with
      | Some m => ret m
      | None => raise (mkExc PyException "could not deserialize")
      end
  | _ => raise (mkExc PyException "a bytes-like object is required")
  end.

Definition clear_cache : Py Node unit :=
  modify (set_model_cache (λ _, ∅)).

Definition is_model_in_cache (model_id : string) : Py Node bool :=
  gets (λ s, bool_decide (is_Some (model_cache s !! model_id))).

Definition get_model_from_cache (model_id : string) : Py Node PyVal :=
  gets (λ s, default VNone (model_cache s !! model_id)).

Definition save_model_to_cache (model : PyVal) (model_id : string)
    (serialized : bool) : Py Node unit :=
  let* in_cache := is_model_in_cache model_id in
  if negb in_cache then
    let* model := (if serialized then (let* m := serde_deserialize model in ret (VModel m))
                   else ret model) in
    modify (set_model_cache (λ c, <[model_id := model]> c))
  else ret tt.

Definition remove_model_from_cache (model_id : string) : Py Node unit :=
  let* in_cache := is_model_in_cache model_id in
  if in_cache then modify (set_model_cache (λ c, delete model_id c))
  else ret tt.

Definition list_models : Py Node Result :=
  try_except
    (let* model_ids := query_TorchModel_ids in
     ret (Success_models model_ids))
    is_SQLAlchemyError
    (λ e, ret (Failure (exc_str e))).

Definition _save_model_in_db (serialized_model : Bytes) (model_id : string)
    : Py Node unit :=
  session_remove;;
  session_add (mkTorchModel model_id serialized_model);;
  session_commit.

(** The loop of [_save_states_in_db] that builds [tensors]. *)
Fixpoint collect_states (ids : list string) : Py Node (list TorchTensor) :=
  match ids with
  | [] => ret []
  | state_id :: rest =>
      let* tensor := get_obj state_id in
      let* tensors := collect_states rest in
      ret (mkTorchTensor state_id (tensor_data tensor) :: tensors)
  end.

Definition _save_states_in_db (model : Model) : Py Node unit :=
  let* tensors := collect_states (state_ids model) in
  session_add_all tensors;;
  session_commit.

Definition _get_model_from_db (model_id : string) : Py Node (option TorchModel) :=
  session_remove;;
  query_TorchModel_get model_id.

Definition _retrieve_state (model : Model) : Py Node unit :=
  for_each (state_ids model) (λ state_id,
    let* result := query_TorchTensor_get state_id in
    let* obj := attr_object result in
    register_obj obj state_id).

Definition get_model_with_id (model_id : string) : Py Node Result :=
  let* in_cache := is_model_in_cache model_id in
  if in_cache then
    let* model := get_model_from_cache model_id in
    ret (Success_model model)
  else
    try_except
      (let* result := _get_model_from_db model_id in
       match result with
       | Some row =>
           let* model := serde_deserialize (VBytes (model_row_model row)) in
           (if isinstance_Plan model then _retrieve_state model else ret tt);;
           save_model_to_cache (VModel model) model_id false;;
           ret (Success_model (VModel model))
       | None => ret (Failure "Model not found")
       end)
      is_SQLAlchemyError
      (λ e, ret (Failure (exc_str e))).

Definition save_model (serialized_model : Bytes) (model_id : string)
    : Py Node Result :=
  let* in_cache := is_model_in_cache model_id in
  if in_cache then
    ret (Failure ("Model with id: " +:+ model_id +:+ " already eixsts."))
  else
    try_except
      (_save_model_in_db serialized_model model_id;;
       let* model := serde_deserialize (VBytes serialized_model) in
       save_model_to_cache (VModel model) model_id false;;
       (if isinstance_Plan model then _save_states_in_db model else ret tt);;
       ret (Success_message ("Model saved with id: " +:+ model_id)))
      is_SQLAlchemyError
      (λ e,
         (if type_is_IntegrityError e then
            let* db_model := get_model_with_id model_id in
            if truthy (VDict db_model)
            then save_model_to_cache (VDict db_model) model_id true
            else ret tt
          else ret tt);;
         ret (Failure (exc_str e))).

Definition delete_model (model_id : string) : Py Node Result :=
  try_except
    (remove_model_from_cache model_id;;
     let* result := query_TorchModel_get model_id in
     session_delete result;;
     session_commit;;
     ret (Success_message ("Model Deleted: " +:+ model_id)))
    is_SQLAlchemyError
    (λ e, ret (Failure (exc_str e))).

End WithCodec.
End ModelManager.

(** ** Hexadecimal transport encoding: [binascii] *)

Module Binascii.

(** Value of a hexadecimal digit, upper or lower case. *)
Definition hex_digit (c : ascii) : option N :=
  let n := N_of_ascii c in
  if ((48 <=? n) && (n <=? 57))%N then Some (n - 48)%N
  else if ((97 <=? n) && (n <=? 102))%N then Some (n - 87)%N
  else if ((65 <=? n) && (n <=? 70))%N then Some (n - 55)%N
  else None.

Definition byte_of_digits (hi lo : N) : byte :=
  byte_of_ascii (ascii_of_N (16 * hi + lo)).

(** Two digits per byte; [None] for an odd length or a character that is
    not a digit. *)
Fixpoint a2b_hex (s : string) : option Bytes :=
  match s with
  | EmptyString => Some []
  | String _ EmptyString => None
  | String a (String b rest) =>
      match hex_digit a, hex_digit b, a2b_hex rest with
      | Some hi, Some lo, Some bs => Some (byte_of_digits hi lo :: bs)
      | _, _, _ => None
      end
  end.

Fixpoint is_ascii (s : string) : bool :=
  match s with
  | EmptyString => true
  | String c rest => (N_of_ascii c <? 128)%N && is_ascii rest
  end.

(** [binascii.unhexlify(s)] on a [str]: the argument must be ASCII
    (ValueError), of even length and made of digits (binascii.Error). *)
Definition unhexlify (s : string) : Exc + Bytes :=
  if negb (is_ascii s) then
    inl (mkExc PyException "string argument should contain only ASCII characters")
  else if Nat.odd (String.length s) then
    inl (mkExc PyException "Odd-length string")
  else
    match a2b_hex s with
    | Some bs => inr bs
    | None => inl (mkExc PyException "Non-hexadecimal digit found")
    end.

Definition digit_of_N (n : N) : ascii :=
  if (n <? 10)%N then ascii_of_N (48 + n) else ascii_of_N (87 + n).

(** [binascii.hexlify(bs)]: two lower-case digits per byte. *)
Fixpoint hexlify (bs : Bytes) : string :=
  match bs with
  | [] => EmptyString
  | b :: rest =>
      let n := Byte.to_N b in
      String (digit_of_N (n / 16)) (String (digit_of_N (n mod 16)) (hexlify rest))
  end.

(** [str(b)] for a byte string made of hexadecimal digits: its repr. *)
Definition str_of_bytes (digits : string) : string := "b'" +:+ digits +:+ "'".

(** [s[2:-1]] *)
Definition slice_2_m1 (s : string) : string :=
  substring 2 (String.length s - 3) s.

End Binascii.

(** ** The command relay: [cmd] of [app/main/events.py] *)

Module Events.
Import Binascii.

(** The calls the handler makes on its collaborators, in order. *)
Inductive Call :=
| CallRecoverObjects
| CallRecvMsg (decoded_message : Bytes)
| CallSnapshot.

Section WithWorker.

(** What is reached through [hook]: the local worker with its object
    store, and whatever the snapshot utilities keep on disk. *)
Variable Hook : Type.

(** [worker.current_objects()] *)
Variable current_objects : Hook → gmap string Bytes.

(** [persistence/utils.py] ([recover_objects], [snapshot]) is not part of
    the sources at hand and [worker._recv_msg] is the external execution
    engine: each is a computation on [Hook] that may raise. *)
Variable recover_objects : Py Hook unit.
Variable snapshot : Py Hook unit.
Variable _recv_msg : Bytes → Py Hook Bytes.

Record Relay := mkRelay {
  hook : Hook;
  calls : list Call;
  emitted : list (string * string)
}.

(** Run a collaborator on the [hook] component, recording the call. *)
Definition call {A} (c : Call) (m : Py Hook A) : Py Relay A :=
  λ s, let '(r, h) := m (hook s) in
       (r, mkRelay h (calls s ++ [c]) (emitted s)).

(** [emit(event, payload)] *)
Definition emit (event payload : string) : Py Relay unit :=
  modify (λ s, mkRelay (hook s) (calls s) (emitted s ++ [(event, payload)])).

(** [message[key]] on the inbound dict; [str(KeyError(key))] is the repr
    of the key. *)
Definition getitem (message : gmap string string) (key : string) : Py Relay string :=
  match message !! key with
  | Some v => ret v
  | None => raise (mkExc PyException ("'" +:+ key +:+ "'"))
  end.

Definition py_unhexlify (s : string) : Py Relay Bytes :=
  match unhexlify s with
  | inr bs => ret bs
  | inl e => raise e
  end.

(** The body of the [try] block of [cmd]. *)
Definition cmd_body (message : gmap string string) : Py Relay unit :=
  let* n := gets (λ s, size (current_objects (hook s))) in
  (if bool_decide (n = 0) then call CallRecoverObjects recover_objects else ret tt);;
  let* encoded_message := getitem message "message" in
  let* decoded_message := py_unhexlify (slice_2_m1 encoded_message) in
  let* decoded_response := call (CallRecvMsg decoded_message) (_recv_msg decoded_message) in
  let encoded_response := str_of_bytes (hexlify decoded_response) in
  call CallSnapshot snapshot;;
  emit "/cmd-response" encoded_response.

Definition cmd (message : gmap string string) : Py Relay unit :=
  try_except (cmd_body message) is_Exception
    (λ e, emit "/cmd-response" (exc_str e)).

End WithWorker.
End Events.

(** ** Auxiliary definitions used to state the properties *)

Module Aux.

(** The object store after the tensors named by [ids] have been
    registered from the tensor table [ts], in order. *)
Definition rehydrate (ts : gmap string Bytes) (ids : list string)
    (objs : gmap string Bytes) : gmap string Bytes :=
  foldl (λ o sid, match ts !! sid with
                  | Some t => <[sid := t]> o
                  | None => o
                  end) objs ids.

(** The tensor rows built for the state ids [ids] from the object store
    [objs], in order. *)
Definition state_rows (ids : list string) (objs : gmap string Bytes)
    : list ModelManager.TorchTensor :=
  (λ sid, ModelManager.mkTorchTensor sid (default [] (objs !! sid))) <$> ids.

Section Relay.
Context {Hook : Type}.
Variable current_objects : Hook → gmap string Bytes.
Variable recover_objects : Py Hook unit.

(** The object store holds no object. *)
Definition cold (h : Hook) : bool :=
  bool_decide (size (current_objects h) = 0).

(** The first statement of [cmd] run on the worker alone, and the calls
    it makes. *)
Definition cold_check (h : Hook) : Outcome unit * Hook :=
  if cold h then recover_objects h else (Return tt, h).

Definition cold_calls (h : Hook) : list Events.Call :=
  if cold h then [Events.CallRecoverObjects] else [].
End Relay.

End Aux.

(** ** Concrete collaborators for the examples *)

Module Fixtures.

(** A codec on which the examples run: the first byte tells a plain
    model (00) from a Plan over the tensors t1 and t2 (01); anything
    else does not decode. *)
Definition codec (b : Bytes) : option Model :=
  match b with
  | x00 :: body => Some (PlainModel body)
  | x01 :: body => Some (Plan ["t1"; "t2"] body)
  | _ => None
  end.

Definition plain_blob : Bytes := [x00; x2a].
Definition plan_blob : Bytes := [x01; x2a].
Definition bad_blob : Bytes := [xff].

(** A node just started: nothing cached, stored or registered. *)
Definition fresh : ModelManager.Node :=
  ModelManager.mkNode ∅ ∅ ∅ [] [] ∅.

(** A node whose object store holds the two state tensors of the Plan. *)
Definition with_tensors : ModelManager.Node :=
  ModelManager.mkNode ∅ ∅ ∅ [] [] {[ "t1" := [x07]; "t2" := [x08] ]}.

(** A node restarted after [plain_blob] was stored under m1. *)
Definition stored_plain : ModelManager.Node :=
  ModelManager.mkNode ∅ {[ "m1" := plain_blob ]} ∅ [] [] ∅.

(** A node restarted after [plan_blob] and its tensors were stored. *)
Definition stored_plan : ModelManager.Node :=
  ModelManager.mkNode ∅ {[ "p1" := plan_blob ]}
    {[ "t1" := [x07]; "t2" := [x08] ]} [] [] ∅.

(** The tensor t2 is already in the tensor table when a Plan is saved. *)
Definition tensor_taken : ModelManager.Node :=
  ModelManager.mkNode ∅ ∅ {[ "t2" := [x09] ]} [] []
    {[ "t1" := [x07]; "t2" := [x08] ]}.

(** [fresh] after [plain_blob] has been saved under m1. *)
Definition saved_plain : ModelManager.Node :=
  ModelManager.mkNode {[ "m1" := VModel (PlainModel [x2a]) ]}
    {[ "m1" := plain_blob ]} ∅ []
    [ModelManager.SessionRemove; ModelManager.SessionAdd;
     ModelManager.SessionCommit] ∅.

(** The worker of the relay examples: [hook] is the object store alone;
    recovery registers one object, the engine echoes the command
    reversed and registers it, a snapshot changes nothing. *)
Definition recover : Py (gmap string Bytes) unit :=
  λ h, (Return tt, <["recovered" := []]> h).
Definition snapshot : Py (gmap string Bytes) unit :=
  λ h, (Return tt, h).
Definition engine (m : Bytes) : Py (gmap string Bytes) Bytes :=
  λ h, (Return (rev m), <["last" := m]> h).
(** An engine that rejects every command. *)
Definition broken_engine (m : Bytes) : Py (gmap string Bytes) Bytes :=
  raise (mkExc PyException "unknown command").

Definition cold : Events.Relay (gmap string Bytes) := Events.mkRelay _ ∅ [] [].
Definition warm : Events.Relay (gmap string Bytes) :=
  Events.mkRelay _ {[ "x" := [x01] ]} [] [].

End Fixtures.

(** ** The node registry: [connect_node] of [app/main/events.py] *)

Module Registry.

(** The calls the handler makes on the client library, in order. *)
Inductive Call :=
| CallNewClient (uri id : string)
| CallConnect.

Section WithWorker.

(** What is reached through [hook], and a client handle. *)
Variable Hook : Type.
Variable Client : Type.

(** The ids in [hook.local_worker._known_workers]. *)
Variable _known_workers : Hook → gset string.

(** [gr.WebsocketGridClient(hook, uri, id=id)] and [new_worker.connect()]
    belong to the client library: each is a computation on [Hook] that
    may raise. *)
Variable WebsocketGridClient : string → string → Py Hook Client.
Variable connect : Client → Py Hook unit.

Record Node := mkNode {
  hook : Hook;
  calls : list Call;
  emitted : list (string * string)
}.

Definition call {A} (c : Call) (m : Py Hook A) : Py Node A :=
  λ s, let '(r, h) := m (hook s) in
       (r, mkNode h (calls s ++ [c]) (emitted s)).

Definition emit (event payload : string) : Py Node unit :=
  modify (λ s, mkNode (hook s) (calls s) (emitted s ++ [(event, payload)])).

(** [msg[key]]; [str(KeyError(key))] is the repr of the key. *)
Definition getitem (msg : gmap string string) (key : string) : Py Node string :=
  match msg !! key with
  | Some v => ret v
  | None => raise (mkExc PyException ("'" +:+ key +:+ "'"))
  end.

(** The body of the [try] block of [connect_node]. *)
Definition connect_node_body (msg : gmap string string) : Py Node unit :=
  let* id := getitem msg "id" in
  let* known := gets (λ s, bool_decide (id ∈ _known_workers (hook s))) in
  if negb known then
    let* uri := getitem msg "uri" in
    let* id' := getitem msg "id" in
    let* new_worker := call (CallNewClient uri id') (WebsocketGridClient uri id') in
    call CallConnect (connect new_worker);;
    emit "/connect-node-response" "Succefully connected!"
  else ret tt.

Definition connect_node (msg : gmap string string) : Py Node unit :=
  try_except (connect_node_body msg) is_Exception
    (λ e, emit "/connect-node-response" (exc_str e)).

End WithWorker.
End Registry.

(** ** Sequences of calls to the model manager *)

Module Requests.
Import ModelManager.

(** One call to the model manager, as a route makes it. *)
Inductive Request :=
| ReqSave (serialized_model : Bytes) (model_id : string)
| ReqGet (model_id : string)
| ReqDelete (model_id : string)
| ReqList
| ReqClearCache.

Section WithCodec.
Variable deserialize : Bytes → option Model.

(** The [try] block and the [except] block of [save_model], named so
    that each can be followed on its own. *)
Definition save_model_try (serialized_model : Bytes) (model_id : string)
    : Py Node Result :=
  _save_model_in_db serialized_model model_id;;
  let* model := serde_deserialize deserialize (VBytes serialized_model) in
  save_model_to_cache deserialize (VModel model) model_id false;;
  (if isinstance_Plan model then _save_states_in_db model else ret tt);;
  ret (Success_message ("Model saved with id: " +:+ model_id)).

Definition save_model_except (model_id : string) (e : Exc) : Py Node Result :=
  (if type_is_IntegrityError e then
     let* db_model := get_model_with_id deserialize model_id in
     if truthy (VDict db_model)
     then save_model_to_cache deserialize (VDict db_model) model_id true
     else ret tt
   else ret tt);;
  ret (Failure (exc_str e)).

(** The node after a call, whether it returned or raised. *)
Definition handle (s : Node) (q : Request) : Node :=
  match q with
  | ReqSave b i => (save_model deserialize b i s).2
  | ReqGet i => (get_model_with_id deserialize i s).2
  | ReqDelete i => (delete_model i s).2
  | ReqList => (list_models s).2
  | ReqClearCache => (clear_cache s).2
  end.

Definition handle_all (qs : list Request) (s : Node) : Node :=
  foldl handle s qs.

(** The cache holds, under an id, nothing but the model that the stored
    blob of that id decodes to, and no row is left staged. *)
Definition coherent (s : Node) : Prop :=
  session s = [] ∧
  ∀ i v, model_cache s !! i = Some v →
         ∃ b m, torch_model s !! i = Some b ∧ deserialize b = Some m ∧
                v = VModel m.

End WithCodec.
End Requests.

(** Collaborators for the registry examples: the worker is the set of
    known ids; a client handle is the id it was made for, known from
    then on; connecting changes nothing. *)
Module RegistryFixtures.

Definition new_client (uri id : string) : Py (gset string) string :=
  λ h, (Return id, {[id]} ∪ h).
Definition connect (c : string) : Py (gset string) unit :=
  λ h, (Return tt, h).
(** A client library that cannot reach any peer. *)
Definition unreachable (uri id : string) : Py (gset string) string :=
  raise (mkExc PyException "connection refused").

Definition alone : Registry.Node (gset string) := Registry.mkNode _ ∅ [] [].
Definition knows_bob : Registry.Node (gset string) :=
  Registry.mkNode _ {[ "bob" ]} [] [].

End RegistryFixtures.

(** * Properties of the model manager *)

Module ModelManagerSpec.
Import ModelManager Aux.

(** Unfold the monad down to functions on states. *)
Ltac py_unfold :=
  unfold mbind, Py_bind, bind, ret, raise, gets, modify, try_except in *.

Section WithCodec.
Variable deserialize : Bytes → option Model.

(** *** Cache hits *)

Lemma is_model_in_cache_true model_id s v :
  model_cache s !! model_id = Some v →
  is_model_in_cache model_id s = (Return true, s).
Proof.
  intros Hc. unfold is_model_in_cache, gets.
  rewrite bool_decide_eq_true_2; [done | by rewrite Hc].
Qed.

Lemma is_model_in_cache_false model_id s :
  model_cache s !! model_id = None →
  is_model_in_cache model_id s = (Return false, s).
Proof.
  intros Hc. unfold is_model_in_cache, gets.
  rewrite bool_decide_eq_false_2; [done | rewrite Hc; by intros [? ?]].
Qed.

Lemma get_model_with_id_cached model_id s v :
  model_cache s !! model_id = Some v →
  get_model_with_id deserialize model_id s = (Return (Success_model v), s).
Proof.
  intros Hc. unfold get_model_with_id, bind.
  rewrite (is_model_in_cache_true _ _ _ Hc).
  unfold get_model_from_cache, gets, ret. by rewrite Hc.
Qed.

Lemma save_model_cached blob model_id s v :
  model_cache s !! model_id = Some v →
  save_model deserialize blob model_id s =
    (Return (Failure ("Model with id: " +:+ model_id +:+ " already eixsts.")), s).
Proof.
  intros Hc. unfold save_model, bind.
  by rewrite (is_model_in_cache_true _ _ _ Hc).
Qed.

Lemma save_model_to_cache_cached v model_id serialized s w :
  model_cache s !! model_id = Some w →
  save_model_to_cache deserialize v model_id serialized s = (Return tt, s).
Proof.
  intros Hc. unfold save_model_to_cache, bind.
  by rewrite (is_model_in_cache_true _ _ _ Hc).
Qed.

Lemma save_model_to_cache_fresh m model_id s :
  model_cache s !! model_id = None →
  save_model_to_cache deserialize (VModel m) model_id false s =
    (Return tt, set_model_cache (λ c, <[model_id := VModel m]> c) s).
Proof.
  intros Hc. unfold save_model_to_cache, bind.
  by rewrite (is_model_in_cache_false _ _ Hc).
Qed.

(** *** The persistence layer *)

Lemma _save_model_in_db_eq blob model_id s :
  _save_model_in_db blob model_id s =
    match torch_model s !! model_id with
    | None =>
        (Return tt,
         mkNode (model_cache s) (<[model_id := blob]> (torch_model s))
           (torch_tensor s) []
           (db_calls s ++ [SessionRemove; SessionAdd; SessionCommit]) (objects s))
    | Some _ =>
        (Raise (mkExc IntegrityError "UNIQUE constraint failed"),
         mkNode (model_cache s) (torch_model s) (torch_tensor s) []
           (db_calls s ++ [SessionRemove; SessionAdd; SessionCommit]) (objects s))
    end.
Proof.
  unfold _save_model_in_db, session_remove, session_add, session_commit.
  py_unfold. unfold set_session, set_tables, log_call. cbn.
  destruct (torch_model s !! model_id); cbn; by rewrite <- !app_assoc.
Qed.

Lemma _get_model_from_db_eq model_id s :
  _get_model_from_db model_id s =
    (Return (mkTorchModel model_id <$> torch_model s !! model_id),
     mkNode (model_cache s) (torch_model s) (torch_tensor s) []
       (db_calls s ++ [SessionRemove; QueryModelGet model_id]) (objects s)).
Proof.
  unfold _get_model_from_db, session_remove, query_TorchModel_get.
  py_unfold. unfold set_session, log_call. cbn. by rewrite <- !app_assoc.
Qed.

(** Building the tensor rows reads the object store and changes nothing;
    it fails, with an exception that is not a database error, exactly
    when a state id is not registered. *)
Lemma collect_states_inv ids s r s' :
  collect_states ids s = (r, s') →
  s' = s ∧
  match r with
  | Return rows =>
      rows = state_rows ids (objects s) ∧
      ∀ sid, sid ∈ ids → is_Some (objects s !! sid)
  | Raise e => is_SQLAlchemyError e = false
  end.
Proof.
  revert r s'. induction ids as [|sid ids IH]; intros r s' H.
  - cbn in H. unfold ret in H. injection H as <- <-.
    split; [done|]. split; [done|]. by intros sid Hin%not_elem_of_nil.
  - cbn in H. unfold bind, get_obj in H.
    destruct (objects s !! sid) as [t|] eqn:Ht; [|by injection H as <- <-].
    destruct (collect_states ids s) as [[rows|e] s2] eqn:Hrest;
      destruct (IH _ _ eq_refl) as [-> Hr]; unfold ret in H;
      injection H as <- <-; [|done].
    destruct Hr as [-> Hall]. split; [done|]. split.
    + unfold state_rows. cbn. by rewrite Ht.
    + intros k Hin. apply elem_of_cons in Hin as [->|Hin]; [by rewrite Ht|by auto].
Qed.

Lemma collect_states_ok ids s :
  (∀ sid, sid ∈ ids → is_Some (objects s !! sid)) →
  collect_states ids s = (Return (state_rows ids (objects s)), s).
Proof.
  induction ids as [|sid ids IH]; intros Hall; [done|].
  cbn. unfold bind at 1, get_obj.
  destruct (Hall sid) as [t Ht]; [by left|]. rewrite Ht.
  unfold bind. rewrite IH; [|intros k Hk; apply Hall; by right].
  reflexivity.
Qed.

(** A commit of tensor rows alone leaves the model table as it is, keeps
    the tensor rows that were there and holds every row committed. *)
Lemma flush_tensors_inv rows ms ts ms' ts' :
  flush (InsertTensor <$> rows) ms ts = Some (ms', ts') →
  ms' = ms ∧
  (∀ k v, ts !! k = Some v → ts' !! k = Some v) ∧
  (∀ r, r ∈ rows → ts' !! tensor_row_id r = Some (tensor_row_object r)).
Proof.
  revert ts. induction rows as [|r rows IH]; intros ts H; cbn in H.
  - injection H as <- <-. split; [done|]. split; [done|].
    by intros r Hin%not_elem_of_nil.
  - destruct (ts !! tensor_row_id r) eqn:Hr; [discriminate|].
    destruct (IH _ H) as (-> & Hkeep & Hrows). split; [done|]. split.
    + intros k v Hk. apply Hkeep. rewrite lookup_insert_ne; [done|congruence].
    + intros r' Hin. apply elem_of_cons in Hin as [->|Hin]; [|by auto].
      apply Hkeep. by rewrite lookup_insert_eq.
Qed.

(** Persisting the state tensors leaves the cache alone. *)
Lemma _save_states_in_db_cache m s r s' :
  _save_states_in_db m s = (r, s') → model_cache s' = model_cache s.
Proof.
  unfold _save_states_in_db, bind. intros H.
  destruct (collect_states (state_ids m) s) as [[rows|e] s2] eqn:Hc;
    destruct (collect_states_inv _ _ _ _ Hc) as [-> Hr].
  - unfold mbind, Py_bind, bind, session_add_all, session_commit, modify in H.
    cbn in H.
    destruct (flush _ _ _) as [[ms ts]|]; by injection H as <- <-.
  - by injection H as <- <-.
Qed.

(** When it succeeds on a clean session, every state tensor was
    registered and now has a record holding it. *)
Lemma _save_states_in_db_ok m s s' :
  session s = [] →
  _save_states_in_db m s = (Return tt, s') →
  torch_model s' = torch_model s ∧
  ∀ sid, sid ∈ state_ids m →
         ∃ t, objects s !! sid = Some t ∧ torch_tensor s' !! sid = Some t.
Proof.
  unfold _save_states_in_db, bind. intros Hclean H.
  destruct (collect_states (state_ids m) s) as [[rows|e] s2] eqn:Hc;
    destruct (collect_states_inv _ _ _ _ Hc) as [-> Hr]; [|discriminate].
  destruct Hr as [-> Hall].
  unfold mbind, Py_bind, bind, session_add_all, session_commit, modify in H.
  cbn in H. rewrite Hclean in H. cbn [app] in H.
  destruct (flush _ _ _) as [[ms ts]|] eqn:Hf; [|discriminate].
  injection H as <-. cbn.
  destruct (flush_tensors_inv _ _ _ _ _ Hf) as (-> & _ & Hrows).
  split; [done|]. intros sid Hin. destruct (Hall sid Hin) as [t Ht].
  exists t. split; [done|].
  specialize (Hrows (mkTorchTensor sid (default [] (objects s !! sid)))).
  cbn in Hrows. rewrite Ht in Hrows. apply Hrows.
  unfold state_rows. apply list_elem_of_fmap. exists sid. by rewrite Ht.
Qed.

(** *** A successful save *)

(** What a successful [save_model] leaves behind: the blob decodes; the
    decoded model sits in the cache under the id and the blob in the
    model table; and the state tensors of a Plan, all registered, each
    have a record. *)
Lemma save_model_success_inv blob model_id s r s1 :
  save_model deserialize blob model_id s = (Return r, s1) →
  success r = true →
  ∃ m, deserialize blob = Some m ∧
       model_cache s !! model_id = None ∧
       model_cache s1 !! model_id = Some (VModel m) ∧
       torch_model s1 !! model_id = Some blob ∧
       (isinstance_Plan m = true →
        ∀ sid, sid ∈ state_ids m →
               ∃ t, objects s !! sid = Some t ∧ torch_tensor s1 !! sid = Some t).
Proof.
  intros Hsave Hok. unfold save_model, bind in Hsave.
  destruct (model_cache s !! model_id) as [v|] eqn:Hc.
  { rewrite (is_model_in_cache_true _ _ _ Hc) in Hsave.
    unfold ret in Hsave. injection Hsave as <- <-. discriminate. }
  rewrite (is_model_in_cache_false _ _ Hc) in Hsave.
  unfold try_except at 1 in Hsave.
  match type of Hsave with
  | match ?body s with _ => _ end = _ => destruct (body s) as [[r0|e] s0] eqn:Hbody
  end.
  - injection Hsave as -> ->.
    unfold mbind, Py_bind, bind in Hbody. rewrite _save_model_in_db_eq in Hbody.
    destruct (torch_model s !! model_id); [discriminate|].
    unfold serde_deserialize in Hbody.
    destruct (deserialize blob) as [m|]; [|discriminate].
    exists m. split; [done|]. split; [done|].
    unfold ret at 1 in Hbody.
    rewrite save_model_to_cache_fresh in Hbody by done.
    match type of Hbody with
    | match ?c ?st with _ => _ end = _ => destruct (c st) as [[[]|e] s2] eqn:Hst
    end; [|discriminate].
    unfold ret in Hbody. injection Hbody as <- <-.
    destruct (isinstance_Plan m).
    + rewrite (_save_states_in_db_cache _ _ _ _ Hst).
      apply _save_states_in_db_ok in Hst as [-> Hts]; [|reflexivity].
      cbn. rewrite !lookup_insert_eq. by auto.
    + unfold ret in Hst. injection Hst as <-. cbn.
      rewrite !lookup_insert_eq. by auto.
  - destruct (is_SQLAlchemyError e); [|discriminate].
    unfold mbind, Py_bind, bind in Hsave.
    match type of Hsave with
    | match ?c ?st with _ => _ end = _ => destruct (c st) as [[[]|e'] s2]
    end; [|discriminate].
    unfold ret in Hsave. injection Hsave as <- <-. discriminate.
Qed.

(** C1. Once [save_model] has succeeded for an id, saving under the same
    id again (whatever the blob) is answered from the cache with the
    duplicate-model failure and changes nothing, so that no call reaches
    the persistent store, and [get_model_with_id] afterwards still
    returns the model decoded from the first blob. *)
Theorem save_model_twice blob1 blob2 model_id s r s1 :
  save_model deserialize blob1 model_id s = (Return r, s1) →
  success r = true →
  save_model deserialize blob2 model_id s1 =
    (Return (Failure ("Model with id: " +:+ model_id +:+ " already eixsts.")), s1) ∧
  ∃ m, deserialize blob1 = Some m ∧
       get_model_with_id deserialize model_id s1 =
         (Return (Success_model (VModel m)), s1).
Proof.
  intros Hsave Hok.
  destruct (save_model_success_inv _ _ _ _ _ Hsave Hok) as (m & Hm & _ & Hc & _).
  split.
  - by apply save_model_cached with (VModel m).
  - exists m. split; [done|]. by apply get_model_with_id_cached.
Qed.

(** C3. After [save_model blob model_id] has succeeded,
    [get_model_with_id model_id] succeeds with the model that [blob]
    decodes to, and it is served from the cache: the state, and with it
    the record of calls made on the database session, is unchanged. *)
Theorem get_after_save_hits_cache blob model_id s r s1 :
  save_model deserialize blob model_id s = (Return r, s1) →
  success r = true →
  ∃ m s2, deserialize blob = Some m ∧
          get_model_with_id deserialize model_id s1 =
            (Return (Success_model (VModel m)), s2) ∧
          db_calls s2 = db_calls s1 ∧ s2 = s1.
Proof.
  intros Hsave Hok.
  destruct (save_model_success_inv _ _ _ _ _ Hsave Hok) as (m & Hm & _ & Hc & _).
  exists m, s1. split; [done|]. split; [|done].
  by apply get_model_with_id_cached.
Qed.

(** *** Loading from the persistent store *)

Lemma rehydrate_stable ts ids objs k :
  is_Some (ts !! k) → objs !! k = ts !! k → rehydrate ts ids objs !! k = ts !! k.
Proof.
  intros Hk. revert objs. induction ids as [|sid ids IH]; intros objs Ho; [done|].
  cbn. apply IH. destruct (ts !! sid) as [t|] eqn:Ht; [|done].
  destruct (decide (sid = k)) as [->|Hne].
  - by rewrite lookup_insert_eq.
  - by rewrite lookup_insert_ne.
Qed.

Lemma rehydrate_lookup ts ids objs k :
  k ∈ ids → is_Some (ts !! k) → rehydrate ts ids objs !! k = ts !! k.
Proof.
  intros Hin Hk. revert objs. induction ids as [|sid ids IH]; intros objs.
  - by apply not_elem_of_nil in Hin.
  - apply elem_of_cons in Hin as [<-|Hin].
    + cbn. destruct Hk as [t Ht]. rewrite Ht. rewrite <- Ht.
      apply rehydrate_stable; [by rewrite Ht|].
      by rewrite lookup_insert_eq.
    + cbn. by apply IH.
Qed.

(** The loop of [_retrieve_state] over ids that all have a tensor
    record: one query per id, each result registered. *)
Lemma retrieve_loop_ok ids s :
  (∀ sid, sid ∈ ids → is_Some (torch_tensor s !! sid)) →
  for_each ids (λ state_id,
      let* result := query_TorchTensor_get state_id in
      let* obj := attr_object result in
      register_obj obj state_id) s =
    (Return tt,
     mkNode (model_cache s) (torch_model s) (torch_tensor s) (session s)
       (db_calls s ++ (QueryTensorGet <$> ids))
       (rehydrate (torch_tensor s) ids (objects s))).
Proof.
  revert s. induction ids as [|sid ids IH]; intros s Hall.
  - cbn. unfold ret. rewrite app_nil_r. by destruct s.
  - cbn. unfold bind at 1.
    destruct (Hall sid) as [t Ht]; [by left|].
    unfold bind, query_TorchTensor_get, attr_object, register_obj, modify, ret.
    rewrite Ht. cbn. rewrite IH.
    + cbn. rewrite <- app_assoc. reflexivity.
    + intros k Hk. cbn. apply Hall. by right.
Qed.

(** The first load of a stored model whose blob decodes and whose state
    tensors, if it is a Plan, all have a record. *)
Lemma get_model_with_id_stored model_id s blob m :
  model_cache s !! model_id = None →
  torch_model s !! model_id = Some blob →
  deserialize blob = Some m →
  (∀ sid, sid ∈ state_ids m → is_Some (torch_tensor s !! sid)) →
  get_model_with_id deserialize model_id s =
    (Return (Success_model (VModel m)),
     mkNode (<[model_id := VModel m]> (model_cache s)) (torch_model s)
       (torch_tensor s) []
       (db_calls s ++ [SessionRemove; QueryModelGet model_id]
                   ++ (QueryTensorGet <$> state_ids m))
       (rehydrate (torch_tensor s) (state_ids m) (objects s))).
Proof.
  intros Hc Hrow Hm Hts. unfold get_model_with_id, bind at 1.
  rewrite (is_model_in_cache_false _ _ Hc).
  unfold try_except, bind at 1. rewrite _get_model_from_db_eq, Hrow. cbn.
  unfold bind at 1. rewrite Hm. unfold ret at 1.
  unfold mbind, Py_bind, bind at 1.
  assert ((if isinstance_Plan m then _retrieve_state m else ret ()) =
          _retrieve_state m) as ->.
  { destruct m; [|done]. reflexivity. }
  unfold _retrieve_state. rewrite retrieve_loop_ok by done. cbn.
  unfold bind. rewrite save_model_to_cache_fresh by done.
  unfold ret, set_model_cache. cbn. by rewrite <- app_assoc.
Qed.

(** C4. A [get_model_with_id] that misses the cache on a stored Plan
    whose state tensors all have a record in the persistent store
    queries the tensor record of every state id, in order, registers
    each in the object store under that id, puts the Plan in the cache
    and returns it. *)
Theorem get_model_with_id_rehydrates model_id s blob ids body :
  model_cache s !! model_id = None →
  torch_model s !! model_id = Some blob →
  deserialize blob = Some (Plan ids body) →
  (∀ sid, sid ∈ ids → is_Some (torch_tensor s !! sid)) →
  ∃ s',
    get_model_with_id deserialize model_id s =
      (Return (Success_model (VModel (Plan ids body))), s') ∧
    db_calls s' = db_calls s ++ [SessionRemove; QueryModelGet model_id]
                             ++ (QueryTensorGet <$> ids) ∧
    (∀ sid, sid ∈ ids → objects s' !! sid = torch_tensor s !! sid) ∧
    model_cache s' !! model_id = Some (VModel (Plan ids body)).
Proof.
  intros Hc Hrow Hm Hts. eexists. split.
  - by apply get_model_with_id_stored with blob.
  - cbn. split; [done|]. split.
    + intros sid Hin. apply rehydrate_lookup; auto.
    + by rewrite lookup_insert_eq.
Qed.

(** The round trip of a Plan: saved with success, then looked up on a
    node that kept the persistent store and lost the cache and possibly
    the object store, it comes back with every state tensor registered
    as it was when the Plan was saved. *)
Lemma plan_rehydration_after_eviction blob model_id s r s1 ids body s2 :
  save_model deserialize blob model_id s = (Return r, s1) →
  success r = true →
  deserialize blob = Some (Plan ids body) →
  model_cache s2 = ∅ →
  torch_model s2 = torch_model s1 →
  torch_tensor s2 = torch_tensor s1 →
  ∃ s3,
    get_model_with_id deserialize model_id s2 =
      (Return (Success_model (VModel (Plan ids body))), s3) ∧
    ∀ sid, sid ∈ ids →
           ∃ t, objects s !! sid = Some t ∧ objects s3 !! sid = Some t.
Proof.
  intros Hsave Hok Hplan Hcache Hms Hts.
  destruct (save_model_success_inv _ _ _ _ _ Hsave Hok)
    as (m & Hm & _ & _ & Hrow & Hstates).
  rewrite Hplan in Hm. injection Hm as <-.
  specialize (Hstates eq_refl). cbn in Hstates.
  assert (∀ sid, sid ∈ ids → is_Some (torch_tensor s2 !! sid)) as Hall.
  { intros sid Hin. destruct (Hstates sid Hin) as (t & _ & Ht).
    rewrite Hts, Ht. by eexists. }
  eexists. split.
  - apply get_model_with_id_stored with blob; [|by rewrite Hms|done|done].
    by rewrite Hcache, lookup_empty.
  - intros sid Hin. destruct (Hstates sid Hin) as (t & Hobj & Ht).
    exists t. split; [done|]. cbn [objects].
    rewrite rehydrate_lookup by auto. by rewrite Hts.
Qed.

(** *** Saving over a stored record *)

(** The repair of the cache on an intact record.  When the record of
    [model_id] is in the persistent store but not in the cache, and the
    stored blob decodes (with, for a Plan, a tensor record for each of
    its state ids), [save_model] runs into the uniqueness violation,
    queries the stored record, leaves the decoded stored model in the
    cache, leaves the stored record as it was, and returns a failure
    result carrying the text of the IntegrityError. *)
Lemma save_model_repairs_cache blob model_id s blob0 m0 :
  model_cache s !! model_id = None →
  torch_model s !! model_id = Some blob0 →
  deserialize blob0 = Some m0 →
  (∀ sid, sid ∈ state_ids m0 → is_Some (torch_tensor s !! sid)) →
  ∃ e s',
    type_is_IntegrityError e = true ∧
    save_model deserialize blob model_id s = (Return (Failure (exc_str e)), s') ∧
    model_cache s' !! model_id = Some (VModel m0) ∧
    torch_model s' = torch_model s ∧
    QueryModelGet model_id ∈ db_calls s'.
Proof.
  intros Hc Hrow Hm Hts.
  exists (mkExc IntegrityError "UNIQUE constraint failed"). eexists.
  split; [done|]. split.
  - unfold save_model, bind at 1. rewrite (is_model_in_cache_false _ _ Hc).
    unfold try_except, mbind, Py_bind, bind at 1.
    rewrite _save_model_in_db_eq, Hrow.
    cbn [is_SQLAlchemyError type_is_IntegrityError exc_class exc_str].
    unfold bind at 1. unfold bind at 1.
    erewrite get_model_with_id_stored; [|done..].
    cbn [truthy].
    erewrite save_model_to_cache_cached; [reflexivity|].
    cbn. by rewrite lookup_insert_eq.
  - cbn. split; [by rewrite lookup_insert_eq|]. split; [done|].
    rewrite !elem_of_app, !elem_of_cons. tauto.
Qed.

(** *** A failing tensor write *)

(** A failing commit of the tensor rows.  When the model row is written
    (the id is new to the cache and to the model table), the blob
    decodes to a Plan whose state tensors are all registered in the
    object store, and the commit of the tensor rows then fails,
    [save_model] returns a failure result carrying the text of the
    database error; the model row just written stays in the model table,
    the Plan stays in the cache, and no tensor row is written. *)
Theorem save_model_tensor_failure blob model_id s m :
  model_cache s !! model_id = None →
  torch_model s !! model_id = None →
  deserialize blob = Some m →
  isinstance_Plan m = true →
  (∀ sid, sid ∈ state_ids m → is_Some (objects s !! sid)) →
  flush (InsertTensor <$> state_rows (state_ids m) (objects s))
        (<[model_id := blob]> (torch_model s)) (torch_tensor s) = None →
  ∃ e s',
    is_SQLAlchemyError e = true ∧
    save_model deserialize blob model_id s = (Return (Failure (exc_str e)), s') ∧
    torch_model s' !! model_id = Some blob ∧
    model_cache s' !! model_id = Some (VModel m) ∧
    torch_tensor s' = torch_tensor s.
Proof.
  intros Hc Hrow Hm Hplan Hobjs Hflush.
  exists (mkExc IntegrityError "UNIQUE constraint failed"). eexists.
  split; [done|]. split.
  - unfold save_model, bind at 1. rewrite (is_model_in_cache_false _ _ Hc).
    unfold try_except, mbind, Py_bind, bind at 1.
    rewrite _save_model_in_db_eq, Hrow.
    unfold bind at 1, serde_deserialize. rewrite Hm. unfold ret at 1.
    unfold bind at 1. rewrite save_model_to_cache_fresh by done.
    rewrite Hplan. unfold bind at 1, _save_states_in_db, bind at 1.
    rewrite collect_states_ok by done.
    unfold mbind, Py_bind, bind at 1, session_add_all, modify, session_commit.
    cbn [set_model_cache set_session log_call session torch_model torch_tensor
         model_cache db_calls objects app].
    rewrite Hflush.
    cbn [is_SQLAlchemyError type_is_IntegrityError exc_class exc_str].
    unfold bind at 1. unfold bind at 1.
    erewrite get_model_with_id_cached; [|cbn; by rewrite lookup_insert_eq].
    cbn [truthy].
    erewrite save_model_to_cache_cached; [reflexivity|].
    cbn. by rewrite lookup_insert_eq.
  - cbn. by rewrite !lookup_insert_eq.
Qed.

(** *** Deleting *)

Lemma remove_model_from_cache_eq model_id s :
  remove_model_from_cache model_id s =
    (Return tt, set_model_cache (λ c, delete model_id c) s).
Proof.
  unfold remove_model_from_cache, bind.
  destruct (model_cache s !! model_id) as [v|] eqn:Hc.
  - by rewrite (is_model_in_cache_true _ _ _ Hc).
  - rewrite (is_model_in_cache_false _ _ Hc). unfold ret, set_model_cache.
    rewrite delete_id by done. by destruct s.
Qed.

Lemma flush_app ops1 ops2 ms ts :
  flush (ops1 ++ ops2) ms ts =
    match flush ops1 ms ts with
    | Some (ms1, ts1) => flush ops2 ms1 ts1
    | None => None
    end.
Proof.
  revert ms ts. induction ops1 as [|[r|r|r] ops1 IH]; intros ms ts; cbn.
  - done.
  - destruct (ms !! model_row_id r); [done|]. apply IH.
  - destruct (ts !! tensor_row_id r); [done|]. apply IH.
  - apply IH.
Qed.

Lemma get_model_with_id_absent model_id s :
  model_cache s !! model_id = None →
  torch_model s !! model_id = None →
  get_model_with_id deserialize model_id s =
    (Return (Failure "Model not found"),
     mkNode (model_cache s) (torch_model s) (torch_tensor s) []
       (db_calls s ++ [SessionRemove; QueryModelGet model_id]) (objects s)).
Proof.
  intros Hc Hrow. unfold get_model_with_id, bind at 1.
  rewrite (is_model_in_cache_false _ _ Hc).
  unfold try_except, bind at 1. by rewrite _get_model_from_db_eq, Hrow.
Qed.

Lemma list_models_eq s :
  list_models s =
    (Return (Success_models ((map_to_list (torch_model s)).*1)),
     log_call QueryModelIds s).
Proof. reflexivity. Qed.

Lemma not_listed (ms : gmap string Bytes) model_id :
  ms !! model_id = None → model_id ∉ (map_to_list ms).*1.
Proof.
  intros Hrow Hin. apply list_elem_of_fmap in Hin as ([k b] & -> & Hin).
  apply elem_of_map_to_list in Hin. cbn in Hrow. congruence.
Qed.

(** C6. [delete_model] removes the cache entry whatever the outcome, so
    that the removal stands when the delete in the persistent store
    fails, as it does when no record exists; and once [delete_model] has
    returned success, [get_model_with_id] fails with "Model not found"
    and the ids that [list_models] returns do not contain the id. *)
Theorem delete_model_complete model_id s r s' :
  delete_model model_id s = (r, s') →
  model_cache s' = delete model_id (model_cache s) ∧
  (torch_model s !! model_id = None → ∃ err, r = Return (Failure err)) ∧
  (∀ res, r = Return res → success res = true →
     (∃ s2, get_model_with_id deserialize model_id s' =
              (Return (Failure "Model not found"), s2)) ∧
     (∃ ids s3, list_models s' = (Return (Success_models ids), s3) ∧
                model_id ∉ ids)).
Proof.
  unfold delete_model, try_except, mbind, Py_bind, bind at 1.
  rewrite remove_model_from_cache_eq.
  unfold bind, query_TorchModel_get, session_delete, session_commit, modify,
    raise, ret.
  destruct s as [cache ms ts staged log objs].
  unfold set_session, set_tables, set_model_cache, log_call.
  cbn [torch_model model_cache torch_tensor session db_calls objects].
  destruct (ms !! model_id) as [b|] eqn:Hrow; cbn [fmap option_fmap option_map].
  - cbn [torch_model model_cache torch_tensor session db_calls objects].
    rewrite flush_app.
    destruct (flush staged ms ts) as [[ms1 ts1]|]; cbn [flush model_row_id].
    + intros H. injection H as <- <-.
      cbn [torch_model model_cache torch_tensor session db_calls objects].
      split; [done|]. split; [done|]. intros res _ _. split.
      * eexists. apply get_model_with_id_absent; cbn; apply lookup_delete_eq.
      * eexists _, _. rewrite list_models_eq. split; [done|].
        apply not_listed. cbn. apply lookup_delete_eq.
    + cbn [is_SQLAlchemyError exc_class].
      intros H. injection H as <- <-.
      split; [done|]. split; [eauto|]. intros res [= <-]. discriminate.
  - cbn [is_SQLAlchemyError exc_class].
    intros H. injection H as <- <-.
    split; [done|]. split; [eauto|]. intros res [= <-]. discriminate.
Qed.

End WithCodec.

(** *** The properties on concrete nodes *)

Import Fixtures.

Lemma save_model_twice_witness :
  save_model codec plain_blob "m1" fresh =
    (Return (Success_message "Model saved with id: m1"), saved_plain) ∧
  save_model codec plan_blob "m1" saved_plain =
    (Return (Failure "Model with id: m1 already eixsts."), saved_plain) ∧
  ∃ m, codec plain_blob = Some m ∧
       get_model_with_id codec "m1" saved_plain =
         (Return (Success_model (VModel m)), saved_plain).
Proof.
  assert (save_model codec plain_blob "m1" fresh =
            (Return (Success_message "Model saved with id: m1"), saved_plain))
    as Hsave by (vm_compute; reflexivity).
  split; [exact Hsave|].
  exact (save_model_twice codec plain_blob plan_blob "m1" fresh _ _ Hsave eq_refl).
Defined.

Lemma get_after_save_hits_cache_witness :
  save_model codec plain_blob "m1" fresh =
    (Return (Success_message "Model saved with id: m1"), saved_plain) ∧
  ∃ m s2, codec plain_blob = Some m ∧
          get_model_with_id codec "m1" saved_plain =
            (Return (Success_model (VModel m)), s2) ∧
          db_calls s2 = db_calls saved_plain ∧ s2 = saved_plain.
Proof.
  assert (save_model codec plain_blob "m1" fresh =
            (Return (Success_message "Model saved with id: m1"), saved_plain))
    as Hsave by (vm_compute; reflexivity).
  split; [exact Hsave|].
  exact (get_after_save_hits_cache codec plain_blob "m1" fresh _ _ Hsave eq_refl).
Defined.

Lemma stored_plan_tensors sid :
  sid ∈ ["t1"; "t2"] → is_Some (torch_tensor stored_plan !! sid).
Proof.
  intros Hin. apply elem_of_cons in Hin as [->|Hin]; [by eexists|].
  apply elem_of_cons in Hin as [->|Hin]; [by eexists|].
  by apply not_elem_of_nil in Hin.
Defined.

Lemma get_model_with_id_rehydrates_witness :
  ∃ s',
    get_model_with_id codec "p1" stored_plan =
      (Return (Success_model (VModel (Plan ["t1"; "t2"] [x2a]))), s') ∧
    db_calls s' = db_calls stored_plan ++ [SessionRemove; QueryModelGet "p1"]
                    ++ (QueryTensorGet <$> ["t1"; "t2"]) ∧
    (∀ sid, sid ∈ ["t1"; "t2"] →
            objects s' !! sid = torch_tensor stored_plan !! sid) ∧
    model_cache s' !! "p1" = Some (VModel (Plan ["t1"; "t2"] [x2a])).
Proof.
  exact (get_model_with_id_rehydrates codec "p1" stored_plan plan_blob
           ["t1"; "t2"] [x2a] eq_refl eq_refl eq_refl stored_plan_tensors).
Defined.

Lemma save_model_repairs_cache_witness :
  ∃ e s',
    type_is_IntegrityError e = true ∧
    save_model codec plain_blob "p1" stored_plan =
      (Return (Failure (exc_str e)), s') ∧
    model_cache s' !! "p1" = Some (VModel (Plan ["t1"; "t2"] [x2a])) ∧
    torch_model s' = torch_model stored_plan ∧
    QueryModelGet "p1" ∈ db_calls s'.
Proof.
  exact (save_model_repairs_cache codec plain_blob "p1" stored_plan plan_blob
           (Plan ["t1"; "t2"] [x2a]) eq_refl eq_refl eq_refl stored_plan_tensors).
Defined.

Lemma tensor_taken_objects sid :
  sid ∈ ["t1"; "t2"] → is_Some (objects tensor_taken !! sid).
Proof.
  intros Hin. apply elem_of_cons in Hin as [->|Hin]; [by eexists|].
  apply elem_of_cons in Hin as [->|Hin]; [by eexists|].
  by apply not_elem_of_nil in Hin.
Defined.

Lemma save_model_tensor_failure_witness :
  ∃ e s',
    is_SQLAlchemyError e = true ∧
    save_model codec plan_blob "p1" tensor_taken =
      (Return (Failure (exc_str e)), s') ∧
    torch_model s' !! "p1" = Some plan_blob ∧
    model_cache s' !! "p1" = Some (VModel (Plan ["t1"; "t2"] [x2a])) ∧
    torch_tensor s' = torch_tensor tensor_taken.
Proof.
  refine (save_model_tensor_failure codec plan_blob "p1" tensor_taken
            (Plan ["t1"; "t2"] [x2a]) eq_refl eq_refl eq_refl eq_refl
            tensor_taken_objects _).
  vm_compute. reflexivity.
Defined.

Lemma delete_model_complete_witness :
  ∃ s',
    delete_model "m1" saved_plain =
      (Return (Success_message "Model Deleted: m1"), s') ∧
    model_cache s' = delete "m1" (model_cache saved_plain) ∧
    (∃ s2, get_model_with_id codec "m1" s' =
             (Return (Failure "Model not found"), s2)) ∧
    (∃ ids s3, list_models s' = (Return (Success_models ids), s3) ∧ "m1" ∉ ids).
Proof.
  destruct (delete_model "m1" saved_plain) as [r s'] eqn:Hdel.
  assert (r = Return (Success_message "Model Deleted: m1")) as ->.
  { apply (f_equal fst) in Hdel. vm_compute in Hdel. by symmetry. }
  exists s'. split; [done|].
  destruct (delete_model_complete codec "m1" saved_plain _ _ Hdel)
    as (Hcache & _ & Hafter).
  split; [exact Hcache|]. exact (Hafter _ eq_refl eq_refl).
Defined.

(** C5, evaluated.  The operations of the model manager turn database
    errors into failure results and let every other exception through.
    On a fresh node [save_model] raises on a blob that does not decode,
    after the row has been written, and it raises on a Plan whose state
    tensor t1 is not registered, again after the row has been written.
    On the node left by that second call, once the cache is dropped,
    [get_model_with_id] finds the Plan, finds no tensor record for t1,
    and raises. *)
Theorem model_manager_raises :
  let '(r1, s1) := save_model codec bad_blob "m1" fresh in
  let '(r2, s2) := save_model codec plan_blob "p1" fresh in
  let '(_, s3) := clear_cache s2 in
  let '(r3, _) := get_model_with_id codec "p1" s3 in
  r1 = Raise (mkExc PyException "could not deserialize") ∧
  torch_model s1 !! "m1" = Some bad_blob ∧
  r2 = Raise (mkExc PyException "Object not found: t1") ∧
  torch_model s2 !! "p1" = Some plan_blob ∧
  r3 = Raise (mkExc PyException "'NoneType' object has no attribute 'object'").
Proof. vm_compute. repeat split. Qed.

(** C2, evaluated.  A first [save_model] of a Plan stops after the model
    row is written, before any tensor row is (here because t1 is not
    registered; a crash at that point leaves the same store).  After a
    restart the record is in the persistent store and not in the cache,
    and saving under the id again runs into the uniqueness violation,
    loads and decodes the record, and then raises on the missing tensor
    record: no failure result is returned and the cache stays empty.
    The same happens over the record of a blob that does not decode. *)
Theorem save_model_repair_raises :
  let '(_, s1) := save_model codec plan_blob "p1" fresh in
  let '(_, s2) := clear_cache s1 in
  let '(r, s3) := save_model codec plan_blob "p1" s2 in
  let '(_, s1') := save_model codec bad_blob "m1" fresh in
  let '(_, s2') := clear_cache s1' in
  let '(r', s3') := save_model codec plain_blob "m1" s2' in
  model_cache s2 !! "p1" = None ∧
  torch_model s2 !! "p1" = Some plan_blob ∧
  r = Raise (mkExc PyException "'NoneType' object has no attribute 'object'") ∧
  model_cache s3 !! "p1" = None ∧
  model_cache s2' !! "m1" = None ∧
  torch_model s2' !! "m1" = Some bad_blob ∧
  r' = Raise (mkExc PyException "could not deserialize") ∧
  model_cache s3' !! "m1" = None.
Proof. vm_compute. repeat split. Qed.

(** C9, evaluated.  Persisting the state tensors of a Plan starts with
    looking each of them up in the object store.  On a fresh node, where
    t1 is not registered, [save_model] writes the model row, caches the
    Plan, and then raises out of [_save_states_in_db]: no failure result
    is returned and no persistence error text is reported, while the
    model row stays in the model table and the Plan stays in the cache. *)
Theorem save_model_unregistered_tensor_raises :
  let '(r, s1) := save_model codec plan_blob "p1" fresh in
  model_cache fresh !! "p1" = None ∧
  torch_model fresh !! "p1" = None ∧
  codec plan_blob = Some (Plan ["t1"; "t2"] [x2a]) ∧
  objects fresh !! "t1" = None ∧
  r = Raise (mkExc PyException "Object not found: t1") ∧
  torch_model s1 !! "p1" = Some plan_blob ∧
  model_cache s1 !! "p1" = Some (VModel (Plan ["t1"; "t2"] [x2a])) ∧
  torch_tensor s1 = ∅ ∧
  db_calls s1 = [SessionRemove; SessionAdd; SessionCommit].
Proof. vm_compute. repeat split. Qed.

End ModelManagerSpec.

(** * Properties of the command relay *)

Module EventsSpec.
Import Binascii Events Aux.

(** *** The transport encoding *)

Lemma a2b_hex_length s :
  (∀ bs, a2b_hex s = Some bs → String.length s = 2 * length bs) ∧
  (∀ c bs, a2b_hex (String c s) = Some bs → S (String.length s) = 2 * length bs).
Proof.
  induction s as [|a s [IH1 IH2]].
  - split; [by intros bs [= <-]|]. intros c bs H. discriminate.
  - split; [exact (IH2 a)|]. intros c bs H. cbn in H.
    destruct (hex_digit c), (hex_digit a); try discriminate.
    destruct (a2b_hex s) as [bs'|] eqn:Hs; [|discriminate].
    injection H as <-. cbn. rewrite (IH1 _ eq_refl). lia.
Qed.

Lemma unhexlify_length s bs :
  unhexlify s = inr bs → String.length s = 2 * length bs.
Proof.
  unfold unhexlify. intros H.
  destruct (negb (is_ascii s)); [discriminate|].
  destruct (Nat.odd (String.length s)); [discriminate|].
  destruct (a2b_hex s) as [bs'|] eqn:Hs; [|discriminate].
  injection H as <-. by apply a2b_hex_length.
Qed.

Lemma substring_length_le s n m : String.length (substring n m s) ≤ m.
Proof.
  revert n m. induction s as [|c s IH]; intros [|n] [|m]; cbn; try lia.
  - specialize (IH 0 m). lia.
  - apply IH.
  - apply IH.
Qed.

Lemma slice_2_m1_length s :
  String.length (slice_2_m1 s) ≤ String.length s - 3.
Proof. apply substring_length_le. Qed.

(** A non-empty string of hexadecimal digits and the same string without
    its first two characters and its last never decode to the same
    bytes. *)
Lemma unframed_differs payload bs :
  payload ≠ "" → unhexlify payload = inr bs →
  unhexlify (slice_2_m1 payload) ≠ inr bs.
Proof.
  intros Hne H1 H2.
  apply unhexlify_length in H1. apply unhexlify_length in H2.
  pose proof (slice_2_m1_length payload) as Hle.
  destruct payload as [|c rest]; [done|]. cbn [String.length] in *. lia.
Qed.

Section WithWorker.
Variable Hook : Type.
Variable current_objects : Hook → gmap string Bytes.
Variable recover_objects : Py Hook unit.
Variable snapshot : Py Hook unit.
Variable _recv_msg : Bytes → Py Hook Bytes.

Local Abbreviation cmd := (cmd Hook current_objects recover_objects snapshot _recv_msg).
Local Abbreviation cmd_body :=
  (cmd_body Hook current_objects recover_objects snapshot _recv_msg).
Local Abbreviation Relay := (Relay Hook).
Local Abbreviation cold_check := (cold_check current_objects recover_objects).
Local Abbreviation cold_calls := (cold_calls current_objects).

(** *** The runs of the handler *)

(** The [try] block of [cmd], step by step: it stops at the first
    collaborator that raises, and emits only if none does. *)
Lemma cmd_body_run message (s : Relay) :
  cmd_body message s =
    let c1 := cold_calls (hook _ s) in
    match cold_check (hook _ s) with
    | (Raise e, h1) => (Raise e, mkRelay _ h1 (calls _ s ++ c1) (emitted _ s))
    | (Return _, h1) =>
        match message !! "message" with
        | None =>
            (Raise (mkExc PyException "'message'"),
             mkRelay _ h1 (calls _ s ++ c1) (emitted _ s))
        | Some encoded =>
            match unhexlify (slice_2_m1 encoded) with
            | inl e => (Raise e, mkRelay _ h1 (calls _ s ++ c1) (emitted _ s))
            | inr bs =>
                match _recv_msg bs h1 with
                | (Raise e, h2) =>
                    (Raise e,
                     mkRelay _ h2 (calls _ s ++ c1 ++ [CallRecvMsg bs]) (emitted _ s))
                | (Return resp, h2) =>
                    match snapshot h2 with
                    | (Raise e, h3) =>
                        (Raise e,
                         mkRelay _ h3
                           (calls _ s ++ c1 ++ [CallRecvMsg bs; CallSnapshot])
                           (emitted _ s))
                    | (Return _, h3) =>
                        (Return tt,
                         mkRelay _ h3
                           (calls _ s ++ c1 ++ [CallRecvMsg bs; CallSnapshot])
                           (emitted _ s ++
                              [("/cmd-response", str_of_bytes (hexlify resp))]))
                    end
                end
            end
        end
    end.
Proof.
  destruct s as [h cs out].
  unfold Events.cmd_body, Aux.cold_check, Aux.cold_calls, cold, mbind, Py_bind,
    bind, call, emit, getitem, py_unhexlify, gets, modify, ret, raise.
  cbn [hook calls emitted].
  destruct (bool_decide (size (current_objects h) = 0)); cbn [hook calls emitted].
  - destruct (recover_objects h) as [[[]|e] h1]; [|done].
    destruct (message !! "message") as [encoded|]; [|done].
    destruct (unhexlify (slice_2_m1 encoded)) as [e|bs]; [done|].
    cbn [hook calls emitted].
    destruct (_recv_msg bs h1) as [[resp|e] h2]; cbn [hook calls emitted];
      [|by rewrite <- app_assoc].
    destruct (snapshot h2) as [[[]|e] h3]; cbn [hook calls emitted];
      by rewrite <- !app_assoc.
  - rewrite !app_nil_r.
    destruct (message !! "message") as [encoded|]; [|done].
    destruct (unhexlify (slice_2_m1 encoded)) as [e|bs]; [done|].
    cbn [hook calls emitted].
    destruct (_recv_msg bs h) as [[resp|e] h2]; cbn [hook calls emitted];
      [|done].
    destruct (snapshot h2) as [[[]|e] h3]; cbn [hook calls emitted];
      by rewrite <- ?app_assoc.
Qed.

(** No call to recovery in an explicit list of other calls. *)
Ltac no_recover :=
  let Hin := fresh "Hin" in
  intros Hin;
  repeat (apply elem_of_cons in Hin as [Hin|Hin]; [discriminate|]);
  by apply not_elem_of_nil in Hin.

(** [except Exception] catches whatever the block raises. *)
Lemma cmd_unfold message (s : Relay) :
  cmd message s =
    match cmd_body message s with
    | (Return a, s1) => (Return a, s1)
    | (Raise e, s1) =>
        (Return tt,
         mkRelay _ (hook _ s1) (calls _ s1)
           (emitted _ s1 ++ [("/cmd-response", exc_str e)]))
    end.
Proof.
  unfold Events.cmd, try_except.
  by destruct (Events.cmd_body _ _ _ _ _ message s) as [[a|e] s1].
Qed.

(** The block emits nothing before it raises, and one response when it
    returns; the calls it makes start with those of the cold check and
    go on without a call to recovery. *)
Lemma cmd_body_effects message (s : Relay) r s1 :
  cmd_body message s = (r, s1) →
  (∃ rest, calls _ s1 = calls _ s ++ cold_calls (hook _ s) ++ rest ∧
           (CallRecoverObjects ∉ rest) ∧
           (∀ bs encoded, CallRecvMsg bs ∈ rest →
                          message !! "message" = Some encoded →
                          unhexlify (slice_2_m1 encoded) = inr bs)) ∧
  match r with
  | Raise _ => emitted _ s1 = emitted _ s
  | Return _ =>
      ∃ resp, emitted _ s1 =
                emitted _ s ++ [("/cmd-response", str_of_bytes (hexlify resp))]
  end.
Proof.
  rewrite cmd_body_run. cbv zeta.
  destruct (cold_check (hook _ s)) as [[[]|e] h1].
  2: { intros [= <- <-]. split; [|done]. exists []. rewrite app_nil_r.
       split; [done|]. split; [apply not_elem_of_nil|].
       by intros bs encoded Hin%not_elem_of_nil. }
  destruct (message !! "message") as [encoded|].
  2: { intros [= <- <-]. split; [|done]. exists []. rewrite app_nil_r.
       split; [done|]. split; [apply not_elem_of_nil|].
       by intros bs encoded Hin%not_elem_of_nil. }
  destruct (unhexlify (slice_2_m1 encoded)) as [e|bs] eqn:Hdec.
  { intros [= <- <-]. split; [|done]. exists []. rewrite app_nil_r.
    split; [done|]. split; [apply not_elem_of_nil|].
    by intros bs encoded' Hin%not_elem_of_nil. }
  destruct (_recv_msg bs h1) as [[resp|e] h2].
  2: { intros [= <- <-]. split; [|done]. exists [CallRecvMsg bs].
       split; [done|]. split; [no_recover|].
       intros bs' encoded' Hin Heq. injection Heq as <-.
       by apply list_elem_of_singleton in Hin as [= ->]. }
  destruct (snapshot h2) as [[[]|e] h3]; intros [= <- <-].
  - split; [|by exists resp]. exists [CallRecvMsg bs; CallSnapshot].
    split; [done|]. split; [no_recover|].
    intros bs' encoded' Hin Heq. injection Heq as <-.
    apply elem_of_cons in Hin as [[= ->]|Hin]; [done|].
    by apply list_elem_of_singleton in Hin.
  - split; [|done]. exists [CallRecvMsg bs; CallSnapshot].
    split; [done|]. split; [no_recover|].
    intros bs' encoded' Hin Heq. injection Heq as <-.
    apply elem_of_cons in Hin as [[= ->]|Hin]; [done|].
    by apply list_elem_of_singleton in Hin.
Qed.

(** *** The claims *)


(** C8. While handling one command the relay runs recovery exactly once,
    before the message is read, decoded and executed, when the object
    store holds no object at the start, and does not run it when the
    store holds an object.  On a cold store the handler is
    [recover_objects] applied to the worker, followed, if it returned,
    by the rest of the handling on the worker as recovery left it; if
    recovery raised, nothing else is run and the response is the text of
    its exception.  On a warm store the handler is the rest of the
    handling on the worker as it stands.  In the calls recorded,
    recovery comes first and once on a cold store and not at all on a
    warm one. *)
Theorem cmd_recovers_when_cold message (s : Relay) :
  (∃ added,
     calls _ (cmd message s).2 = calls _ s ++ added ∧
     (size (current_objects (hook _ s)) = 0 →
        ∃ rest, added = CallRecoverObjects :: rest ∧ CallRecoverObjects ∉ rest) ∧
     (size (current_objects (hook _ s)) ≠ 0 → CallRecoverObjects ∉ added)) ∧
  let respond h cs payload :=
    (Return tt, mkRelay _ h cs (emitted _ s ++ [("/cmd-response", payload)])) in
  let rest h cs :=
    match message !! "message" with
    | None => respond h cs "'message'"
    | Some encoded =>
        match unhexlify (slice_2_m1 encoded) with
        | inl e => respond h cs (exc_str e)
        | inr bs =>
            match _recv_msg bs h with
            | (Raise e, h2) => respond h2 (cs ++ [CallRecvMsg bs]) (exc_str e)
            | (Return resp, h2) =>
                match snapshot h2 with
                | (Raise e, h3) =>
                    respond h3 (cs ++ [CallRecvMsg bs; CallSnapshot]) (exc_str e)
                | (Return _, h3) =>
                    respond h3 (cs ++ [CallRecvMsg bs; CallSnapshot])
                      (str_of_bytes (hexlify resp))
                end
            end
        end
    end in
  (size (current_objects (hook _ s)) = 0 →
     cmd message s =
       match recover_objects (hook _ s) with
       | (Raise e, h1) =>
           respond h1 (calls _ s ++ [CallRecoverObjects]) (exc_str e)
       | (Return _, h1) => rest h1 (calls _ s ++ [CallRecoverObjects])
       end) ∧
  (size (current_objects (hook _ s)) ≠ 0 →
     cmd message s = rest (hook _ s) (calls _ s)).
Proof.
  split.
  { rewrite cmd_unfold.
    destruct (cmd_body message s) as [[[]|e] s1] eqn:Hbody;
      destruct (cmd_body_effects _ _ _ _ Hbody) as [(rest & Hcalls & Hrest & _) _];
      cbn [snd calls]; rewrite Hcalls;
      exists (cold_calls (hook _ s) ++ rest); (split; [done|]);
      unfold Aux.cold_calls, cold; split; intros Hsize.
    - rewrite bool_decide_eq_true_2 by done. by exists rest.
    - by rewrite bool_decide_eq_false_2 by done.
    - rewrite bool_decide_eq_true_2 by done. by exists rest.
    - by rewrite bool_decide_eq_false_2 by done. }
  cbv zeta. split; intros Hsize;
    rewrite cmd_unfold, cmd_body_run; cbv zeta;
    unfold Aux.cold_check, Aux.cold_calls, cold.
  - rewrite bool_decide_eq_true_2 by done.
    destruct (recover_objects (hook _ s)) as [[[]|e] h1]; [|done].
    destruct (message !! "message") as [encoded|]; [|done].
    destruct (unhexlify (slice_2_m1 encoded)) as [e|bs]; [done|].
    destruct (_recv_msg bs h1) as [[resp|e] h2];
      [|cbn [hook calls emitted]; by rewrite <- !app_assoc].
    destruct (snapshot h2) as [[[]|e] h3]; cbn [hook calls emitted];
      by rewrite <- !app_assoc.
  - rewrite bool_decide_eq_false_2 by done. cbn [app].
    destruct (message !! "message") as [encoded|];
      [|cbn [hook calls emitted]; by rewrite app_nil_r].
    destruct (unhexlify (slice_2_m1 encoded)) as [e|bs];
      [cbn [hook calls emitted]; by rewrite app_nil_r|].
    destruct (_recv_msg bs (hook _ s)) as [[resp|e] h2]; [|done].
    by destruct (snapshot h2) as [[[]|e] h3].
Qed.

(** C10, amended.  The payload the relay decodes is [encoded[2:-1]], the
    message text without its first two characters and its last.  When
    the cold check goes through, that text decodes to [bs], the engine
    answers [resp] and the snapshot succeeds, the engine has been called
    on [bs] and the response emitted is the repr of the hexlified
    [resp].  The engine is called on nothing but the decoding of
    [encoded[2:-1]]; so when the message text is itself a non-empty
    string of hexadecimal digits decoding to [bs], sent without the
    framing, the engine is not called on [bs]. *)
Theorem cmd_decodes_framed message encoded (s : Relay) :
  message !! "message" = Some encoded →
  (∀ h1 bs resp h2 h3,
     cold_check (hook _ s) = (Return tt, h1) →
     unhexlify (slice_2_m1 encoded) = inr bs →
     _recv_msg bs h1 = (Return resp, h2) →
     snapshot h2 = (Return tt, h3) →
     cmd message s =
       (Return tt,
        mkRelay _ h3
          (calls _ s ++ cold_calls (hook _ s) ++ [CallRecvMsg bs; CallSnapshot])
          (emitted _ s ++ [("/cmd-response", "b'" +:+ hexlify resp +:+ "'")]))) ∧
  ∃ added,
    calls _ (cmd message s).2 = calls _ s ++ added ∧
    (∀ bs, CallRecvMsg bs ∈ added → unhexlify (slice_2_m1 encoded) = inr bs) ∧
    (∀ bs, encoded ≠ "" → unhexlify encoded = inr bs → CallRecvMsg bs ∉ added).
Proof.
  intros Hmsg. split.
  - intros h1 bs resp h2 h3 Hcold Hdec Hrecv Hsnap.
    rewrite cmd_unfold, cmd_body_run. cbv zeta.
    by rewrite Hcold, Hmsg, Hdec, Hrecv, Hsnap.
  - rewrite cmd_unfold.
    assert (∀ s1 : Relay,
      (∃ rest, calls _ s1 = calls _ s ++ cold_calls (hook _ s) ++ rest ∧
               (CallRecoverObjects ∉ rest) ∧
               (∀ bs encoded, CallRecvMsg bs ∈ rest →
                              message !! "message" = Some encoded →
                              unhexlify (slice_2_m1 encoded) = inr bs)) →
      ∃ added,
        calls _ s1 = calls _ s ++ added ∧
        (∀ bs, CallRecvMsg bs ∈ added → unhexlify (slice_2_m1 encoded) = inr bs) ∧
        (∀ bs, encoded ≠ "" → unhexlify encoded = inr bs → CallRecvMsg bs ∉ added))
      as Hgen.
    { intros s1 (rest & Hcalls & _ & Honly).
      assert (∀ bs, CallRecvMsg bs ∈ cold_calls (hook _ s) ++ rest →
                    unhexlify (slice_2_m1 encoded) = inr bs) as Hadded.
      { intros bs Hin. apply elem_of_app in Hin as [Hin|Hin]; [|by eauto].
        unfold Aux.cold_calls in Hin. destruct (cold _ _).
        - by apply list_elem_of_singleton in Hin.
        - by apply not_elem_of_nil in Hin. }
      exists (cold_calls (hook _ s) ++ rest). split; [done|]. split; [done|].
      intros bs Hne Hraw Hin. by apply (unframed_differs encoded bs), Hadded. }
    destruct (cmd_body message s) as [[[]|e] s1] eqn:Hbody;
      destruct (cmd_body_effects _ _ _ _ Hbody) as [Hrest _]; cbn [snd calls];
      by apply Hgen.
Qed.

End WithWorker.

(** *** The properties on a concrete worker *)

Import Fixtures.

Local Abbreviation run := (Events.cmd _ (λ h, h) recover snapshot engine).


(** One recovery, first, on a cold store, and the engine run on the
    store as recovery left it; none on a warm one, and the engine run on
    the store as it stood. *)
Lemma cmd_recovers_when_cold_witness :
  (∃ rest, calls _ (run {[ "message" := "b'6869'" ]} cold).2 =
             CallRecoverObjects :: rest ∧ CallRecoverObjects ∉ rest) ∧
  (CallRecoverObjects ∉ calls _ (run {[ "message" := "b'6869'" ]} warm).2) ∧
  run {[ "message" := "b'6869'" ]} cold =
    (Return tt,
     mkRelay _ {[ "recovered" := []; "last" := [x68; x69] ]}
       [CallRecoverObjects; CallRecvMsg [x68; x69]; CallSnapshot]
       [("/cmd-response", "b'6968'")]) ∧
  run {[ "message" := "b'6869'" ]} warm =
    (Return tt,
     mkRelay _ {[ "x" := [x01]; "last" := [x68; x69] ]}
       [CallRecvMsg [x68; x69]; CallSnapshot]
       [("/cmd-response", "b'6968'")]).
Proof.
  destruct (cmd_recovers_when_cold _ (λ h, h) recover snapshot engine
              {[ "message" := "b'6869'" ]} cold)
    as [(added & Hcalls & Hcold & _) [Hrun _]].
  destruct (cmd_recovers_when_cold _ (λ h, h) recover snapshot engine
              {[ "message" := "b'6869'" ]} warm)
    as [(added' & Hcalls' & _ & Hwarm) [_ Hrun']].
  split; [|split; [|split]].
  - destruct (Hcold eq_refl) as (rest & -> & Hrest).
    exists rest. split; [exact Hcalls | exact Hrest].
  - rewrite Hcalls'. apply Hwarm. vm_compute. discriminate.
  - rewrite (Hrun eq_refl). vm_compute. reflexivity.
  - rewrite Hrun'; [vm_compute; reflexivity | vm_compute; discriminate].
Defined.

(** The framed payload reaches the engine decoded; the same digits sent
    bare do not. *)
Lemma cmd_decodes_framed_witness :
  run {[ "message" := "b'6869'" ]} warm =
    (Return tt,
     mkRelay _ {[ "x" := [x01]; "last" := [x68; x69] ]}
       [CallRecvMsg [x68; x69]; CallSnapshot]
       [("/cmd-response", "b'6968'")]) ∧
  CallRecvMsg [x68; x69] ∉ calls _ (run {[ "message" := "6869" ]} warm).2.
Proof.
  split.
  - destruct (cmd_decodes_framed _ (λ h, h) recover snapshot engine
                {[ "message" := "b'6869'" ]} "b'6869'" warm
                (lookup_singleton_eq _ _)) as [Hrun _].
    rewrite (Hrun {[ "x" := [x01] ]} [x68; x69] [x69; x68]
               {[ "x" := [x01]; "last" := [x68; x69] ]}
               {[ "x" := [x01]; "last" := [x68; x69] ]});
      [reflexivity | vm_compute; reflexivity | reflexivity
      | vm_compute; reflexivity | reflexivity].
  - destruct (cmd_decodes_framed _ (λ h, h) recover snapshot engine
                {[ "message" := "6869" ]} "6869" warm (lookup_singleton_eq _ _))
      as [_ (added & Hcalls & _ & Hbare)].
    rewrite Hcalls. apply (Hbare [x68; x69]); [discriminate | reflexivity].
Defined.

(** The empty text is a string of hexadecimal digits, for no bytes; sent
    bare, it is its own slice, and the engine is called on exactly the
    bytes it stands for. *)
Lemma bare_empty_payload_decoded_as_sent :
  unhexlify "" = inr [] ∧
  slice_2_m1 "" = "" ∧
  CallRecvMsg [] ∈ calls _ (run {[ "message" := "" ]} warm).2.
Proof.
  split; [reflexivity|]. split; [reflexivity|].
  vm_compute. apply list_elem_of_here.
Qed.

End EventsSpec.

(** * Further properties of the model manager *)

Module ModelManagerExtra.
Import ModelManager Aux Requests ModelManagerSpec.

Section WithCodec.
Variable deserialize : Bytes → option Model.

(** *** What each operation can change *)

(** The loop of [_retrieve_state] touches the object store and the log
    of queries only, and fails only with an exception that is not a
    database error. *)
Lemma retrieve_loop_effects ids s r s' :
  for_each ids (λ state_id,
      let* result := query_TorchTensor_get state_id in
      let* obj := attr_object result in
      register_obj obj state_id) s = (r, s') →
  model_cache s' = model_cache s ∧ torch_model s' = torch_model s ∧
  torch_tensor s' = torch_tensor s ∧ session s' = session s ∧
  match r with
  | Return _ => True
  | Raise e => is_SQLAlchemyError e = false
  end.
Proof.
  revert s. induction ids as [|sid ids IH]; intros s H.
  - cbn in H. unfold ret in H. by injection H as <- <-.
  - cbn [for_each] in H. unfold bind at 1 in H.
    match type of H with
    | context [match ?c s with _ => _ end] =>
        destruct (c s) as [[[]|e] s1] eqn:Hstep
    end;
      unfold bind, query_TorchTensor_get, attr_object, register_obj, modify,
        ret, raise in Hstep;
      destruct (torch_tensor s !! sid) as [t|]; cbn in Hstep;
      try discriminate.
    + injection Hstep as <-. apply IH in H. cbn in H. exact H.
    + injection Hstep as <- <-. by injection H as <- <-.
Qed.

(** [get_model_with_id] never writes to the persistent store; it leaves
    the cache as it is or adds, under the id looked up, the model that
    the stored blob decodes to. *)
Lemma get_model_with_id_effects model_id s r s' :
  get_model_with_id deserialize model_id s = (r, s') →
  torch_model s' = torch_model s ∧ torch_tensor s' = torch_tensor s ∧
  (s' = s ∨ session s' = []) ∧
  (model_cache s' = model_cache s ∨
   ∃ b m, model_cache s !! model_id = None ∧ torch_model s !! model_id = Some b ∧
          deserialize b = Some m ∧
          model_cache s' = <[model_id := VModel m]> (model_cache s)) ∧
  match r with
  | Return res =>
      (∃ v, res = Success_model v ∧ model_cache s' !! model_id = Some v) ∨
      (res = Failure "Model not found" ∧ model_cache s !! model_id = None ∧
       torch_model s !! model_id = None ∧ model_cache s' = model_cache s)
  | Raise e => is_SQLAlchemyError e = false
  end.
Proof.
  intros H.
  assert ((∃ v, model_cache s !! model_id = Some v) ∨
          model_cache s !! model_id = None) as [[v Hc]|Hc]
    by (destruct (model_cache s !! model_id); eauto).
  { rewrite (get_model_with_id_cached _ _ _ _ Hc) in H. injection H as <- <-.
    do 4 (split; [by auto|]). left. by eauto. }
  unfold get_model_with_id, bind at 1 in H.
  rewrite (is_model_in_cache_false _ _ Hc) in H.
  unfold try_except, bind at 1 in H. rewrite _get_model_from_db_eq in H.
  assert ((∃ b, torch_model s !! model_id = Some b) ∨
          torch_model s !! model_id = None) as [[b Hrow]|Hrow]
    by (destruct (torch_model s !! model_id); eauto);
    rewrite Hrow in H; cbn [fmap option_fmap option_map] in H.
  2: { unfold ret in H. injection H as <- <-. cbn.
       do 4 (split; [by auto|]). right. by auto. }
  cbn [model_row_model] in H. unfold bind at 1, serde_deserialize in H.
  destruct (deserialize b) as [m|] eqn:Hm.
  2: { unfold raise in H. cbn in H. injection H as <- <-. cbn. by auto 10. }
  unfold ret at 1, mbind, Py_bind, bind at 1 in H.
  match type of H with
  | context [match ?c ?st with _ => _ end] =>
      destruct (c st) as [[[]|e] s2] eqn:Hst
  end.
  - assert (model_cache s2 = model_cache s ∧ torch_model s2 = torch_model s ∧
            torch_tensor s2 = torch_tensor s ∧ session s2 = []) as (Hc2 & Hm2 & Ht2 & Hs2).
    { destruct (isinstance_Plan m).
      - apply retrieve_loop_effects in Hst. cbn in Hst. tauto.
      - unfold ret in Hst. by injection Hst as <-. }
    unfold bind at 1 in H.
    rewrite save_model_to_cache_fresh in H by (by rewrite Hc2).
    unfold ret in H. injection H as <- <-. cbn.
    split; [done|]. split; [done|]. split; [by right|]. split.
    + right. exists b, m. by rewrite Hc2.
    + left. exists (VModel m). by rewrite lookup_insert_eq.
  - assert (model_cache s2 = model_cache s ∧ torch_model s2 = torch_model s ∧
            torch_tensor s2 = torch_tensor s ∧ session s2 = [] ∧
            is_SQLAlchemyError e = false) as (Hc2 & Hm2 & Ht2 & Hs2 & He).
    { destruct (isinstance_Plan m).
      - apply retrieve_loop_effects in Hst. cbn in Hst. tauto.
      - unfold ret in Hst. discriminate. }
    rewrite He in H. injection H as <- <-. by auto 10.
Qed.

Lemma save_model_blocks blob model_id s :
  save_model deserialize blob model_id s =
    match model_cache s !! model_id with
    | Some _ =>
        (Return (Failure ("Model with id: " +:+ model_id +:+ " already eixsts.")), s)
    | None =>
        try_except (save_model_try deserialize blob model_id) is_SQLAlchemyError
          (save_model_except deserialize model_id) s
    end.
Proof.
  destruct (model_cache s !! model_id) as [v|] eqn:Hc.
  - by apply save_model_cached with v.
  - unfold save_model, bind at 1. by rewrite (is_model_in_cache_false _ _ Hc).
Qed.

(** The [try] block of [save_model], from a node where the id is not
    cached: where it stops, the session is clean, the tensor rows and
    the object store are as before or grown, and either nothing else
    changed (the id was taken), or the row was written and nothing
    else, or the row was written and the decoded model cached. *)
Lemma save_model_try_effects blob model_id s r s0 :
  model_cache s !! model_id = None →
  save_model_try deserialize blob model_id s = (r, s0) →
  session s0 = [] ∧ objects s0 = objects s ∧
  torch_tensor s ⊆ torch_tensor s0 ∧
  ((torch_model s0 = torch_model s ∧ model_cache s0 = model_cache s ∧
    is_Some (torch_model s !! model_id)) ∨
   (torch_model s !! model_id = None ∧
    torch_model s0 = <[model_id := blob]> (torch_model s) ∧
    (model_cache s0 = model_cache s ∧ (∃ e, r = Raise e ∧ is_SQLAlchemyError e = false) ∨
     ∃ m, deserialize blob = Some m ∧
          model_cache s0 = <[model_id := VModel m]> (model_cache s)))).
Proof.
  intros Hc H. unfold save_model_try, mbind, Py_bind, bind at 1 in H.
  rewrite _save_model_in_db_eq in H.
  destruct (torch_model s !! model_id) as [b0|] eqn:Hrow.
  { injection H as <- <-. cbn. split; [done|]. split; [done|]. split; [done|].
    left. by eauto. }
  unfold bind at 1, serde_deserialize in H.
  destruct (deserialize blob) as [m|] eqn:Hm.
  2: { unfold raise in H. injection H as <- <-. cbn.
       split; [done|]. split; [done|]. split; [done|]. right.
       split; [done|]. split; [done|]. left. split; [done|]. by eauto. }
  unfold ret at 1, bind at 1 in H.
  rewrite save_model_to_cache_fresh in H by done.
  unfold bind at 1 in H.
  match type of H with
  | context [match ?c ?st with _ => _ end] =>
      destruct (c st) as [[[]|e] s2] eqn:Hst
  end.
  - unfold ret in H. injection H as <- <-.
    destruct (isinstance_Plan m).
    + pose proof (_save_states_in_db_cache _ _ _ _ Hst) as Hc2.
      unfold _save_states_in_db, bind in Hst.
      destruct (collect_states _ _) as [[rows|e] s3] eqn:Hcol;
        destruct (collect_states_inv _ _ _ _ Hcol) as [-> Hr]; [|discriminate].
      unfold mbind, Py_bind, bind, session_add_all, session_commit, modify in Hst.
      cbn in Hst.
      destruct (flush _ _ _) as [[ms ts]|] eqn:Hf; [|discriminate].
      injection Hst as <-. cbn in *.
      destruct (flush_tensors_inv _ _ _ _ _ Hf) as (-> & Hkeep & _).
      split; [done|]. split; [done|].
      split; [by apply map_subseteq_spec|]. right.
      split; [done|]. split; [done|]. right. by exists m.
    + unfold ret in Hst. injection Hst as <-. cbn.
      split; [done|]. split; [done|]. split; [done|]. right.
      split; [done|]. split; [done|]. right. by exists m.
  - injection H as <- <-.
    destruct (isinstance_Plan m); [|unfold ret in Hst; discriminate].
    pose proof (_save_states_in_db_cache _ _ _ _ Hst) as Hc2.
    unfold _save_states_in_db, bind in Hst.
    destruct (collect_states _ _) as [[rows|e'] s3] eqn:Hcol;
      destruct (collect_states_inv _ _ _ _ Hcol) as [-> Hr].
    + unfold mbind, Py_bind, bind, session_add_all, session_commit, modify in Hst.
      cbn in Hst.
      destruct (flush _ _ _) as [[ms ts]|] eqn:Hf; [discriminate|].
      injection Hst as <- <-. cbn in *.
      split; [done|]. split; [done|]. split; [done|]. right.
      split; [done|]. split; [done|]. right. by exists m.
    + injection Hst as <- <-. cbn in *.
      split; [done|]. split; [done|]. split; [done|]. right.
      split; [done|]. split; [done|]. right. by exists m.
Qed.

(** The [except] block never reports success, and it leaves the node as
    it found it or as [get_model_with_id] left it. *)
Lemma save_model_except_effects model_id e s0 r s' :
  save_model_except deserialize model_id e s0 = (r, s') →
  (∀ res, r = Return res → res = Failure (exc_str e)) ∧
  (s' = s0 ∨ ∃ rg, get_model_with_id deserialize model_id s0 = (rg, s')).
Proof.
  unfold save_model_except, mbind, Py_bind, bind at 1. intros H.
  destruct (type_is_IntegrityError e).
  - unfold bind at 1 in H.
    destruct (get_model_with_id deserialize model_id s0) as [[rg|eg] sg] eqn:Hg.
    + cbn [truthy] in H. unfold save_model_to_cache, bind at 1 in H.
      destruct (model_cache sg !! model_id) as [v|] eqn:Hc.
      * rewrite (is_model_in_cache_true _ _ _ Hc) in H. cbn in H.
        unfold ret in H. injection H as <- <-.
        split; [by intros res [= <-]|]. by eauto.
      * rewrite (is_model_in_cache_false _ _ Hc) in H. cbn in H.
        unfold bind, raise in H. injection H as <- <-. split; [done|]. by eauto.
    + injection H as <- <-. split; [done|]. by eauto.
  - unfold ret in H. injection H as <- <-.
    split; [by intros res [= <-]|]. by auto.
Qed.

(** Every way [save_model] can end.  The tensor rows are kept; the model
    table is as before or holds the new row under an id that was free;
    the cache is as before or holds, under the id, the model that the
    row now stored under it decodes to. *)
Lemma save_model_effects blob model_id s r s' :
  save_model deserialize blob model_id s = (r, s') →
  torch_tensor s ⊆ torch_tensor s' ∧
  (s' = s ∨ session s' = []) ∧
  (torch_model s' = torch_model s ∨
   (torch_model s !! model_id = None ∧
    torch_model s' = <[model_id := blob]> (torch_model s))) ∧
  (model_cache s' = model_cache s ∨
   ∃ b m, model_cache s !! model_id = None ∧ torch_model s' !! model_id = Some b ∧
          deserialize b = Some m ∧
          model_cache s' = <[model_id := VModel m]> (model_cache s)).
Proof.
  intros H. rewrite save_model_blocks in H.
  assert ((∃ v, model_cache s !! model_id = Some v) ∨
          model_cache s !! model_id = None) as [[v Hc]|Hc]
    by (destruct (model_cache s !! model_id); eauto);
    rewrite Hc in H.
  { injection H as <- <-. by auto. }
  unfold try_except in H.
  destruct (save_model_try deserialize blob model_id s) as [r0 s0] eqn:Htry.
  destruct (save_model_try_effects _ _ _ _ _ Hc Htry) as (Hs0 & _ & Hts & Hcases).
  assert ((torch_model s0 = torch_model s ∨
           (torch_model s !! model_id = None ∧
            torch_model s0 = <[model_id := blob]> (torch_model s))) ∧
          (model_cache s0 = model_cache s ∨
           ∃ m, torch_model s0 !! model_id = Some blob ∧ deserialize blob = Some m ∧
                model_cache s0 = <[model_id := VModel m]> (model_cache s)))
    as (Hms0 & Hc0).
  { destruct Hcases as [(-> & -> & _)|(Hrow & -> & [[-> _]|(m & Hm & ->)])];
      (split; [by auto|]); [by left|by left|].
    right. exists m. by rewrite lookup_insert_eq. }
  assert (torch_tensor s ⊆ torch_tensor s0 ∧ (s0 = s ∨ session s0 = []) ∧
          (torch_model s0 = torch_model s ∨
           (torch_model s !! model_id = None ∧
            torch_model s0 = <[model_id := blob]> (torch_model s))) ∧
          (model_cache s0 = model_cache s ∨
           ∃ b m, model_cache s !! model_id = None ∧
                  torch_model s0 !! model_id = Some b ∧ deserialize b = Some m ∧
                  model_cache s0 = <[model_id := VModel m]> (model_cache s)))
    as Hstay.
  { split; [done|]. split; [by right|]. split; [done|].
    destruct Hc0 as [->|(m & Hb & Hdec & ->)]; [by left|].
    right. by exists blob, m. }
  destruct r0 as [a|e]; [injection H as <- <-; exact Hstay|].
  destruct (is_SQLAlchemyError e); [|injection H as <- <-; exact Hstay].
  destruct (save_model_except_effects _ _ _ _ _ H) as [_ [->|[rg Hg]]];
    [exact Hstay|].
  destruct (get_model_with_id_effects _ _ _ _ Hg) as (Hm & Ht & Hsess & Hcg & _).
  rewrite Ht, Hm. split; [done|].
  split; [destruct Hsess as [->|?]; by auto|]. split; [done|].
  destruct Hcg as [->|(b & m & Hnone & Hb & Hdec & ->)].
  - destruct Hc0 as [->|(m & Hb & Hdec & ->)]; [by left|].
    right. by exists blob, m.
  - destruct Hc0 as [->|(m' & _ & _ & Hins)].
    + right. by exists b, m.
    + rewrite Hins, lookup_insert_eq in Hnone. discriminate.
Qed.

(** Every way [delete_model] can end on a clean session: the cache entry
    is gone; the row is deleted and the call succeeds if there was one,
    and the call fails if there was none; tensor rows and the object
    store are not touched. *)
Lemma delete_model_effects model_id s r s' :
  session s = [] →
  delete_model model_id s = (r, s') →
  model_cache s' = delete model_id (model_cache s) ∧
  torch_tensor s' = torch_tensor s ∧ objects s' = objects s ∧
  session s' = [] ∧
  ((torch_model s !! model_id = None ∧ torch_model s' = torch_model s ∧
    ∃ err, r = Return (Failure err)) ∨
   (is_Some (torch_model s !! model_id) ∧
    torch_model s' = delete model_id (torch_model s) ∧
    r = Return (Success_message ("Model Deleted: " +:+ model_id)))).
Proof.
  unfold delete_model, try_except, mbind, Py_bind, bind at 1.
  rewrite remove_model_from_cache_eq.
  unfold bind, query_TorchModel_get, session_delete, session_commit, modify,
    raise, ret.
  destruct s as [cache ms ts staged log objs].
  unfold set_session, set_tables, set_model_cache, log_call.
  cbn [torch_model model_cache torch_tensor session db_calls objects].
  intros ->.
  destruct (ms !! model_id) as [b|] eqn:Hrow; cbn [fmap option_fmap option_map].
  - cbn. intros H. injection H as <- <-. cbn.
    split; [done|]. split; [done|]. split; [done|]. split; [done|].
    right. by eauto.
  - cbn. intros H. injection H as <- <-. cbn.
    split; [done|]. split; [done|]. split; [done|]. split; [done|].
    left. by eauto.
Qed.

(** *** Saving *)

(** X1. However [save_model] ends, by a result or by an exception, every
    model row and every tensor row that was stored is still stored,
    unchanged: a record is never overwritten. *)
Theorem save_model_never_overwrites blob model_id s r s' :
  save_model deserialize blob model_id s = (r, s') →
  torch_model s ⊆ torch_model s' ∧ torch_tensor s ⊆ torch_tensor s'.
Proof.
  intros H. destruct (save_model_effects _ _ _ _ _ H) as (Ht & _ & Hm & _).
  split; [|done]. destruct Hm as [->|[Hnone ->]]; [done|].
  by apply insert_subseteq.
Qed.

(** X2. However [save_model] ends, the cache entries and the model rows
    of the other ids are as they were. *)
Theorem save_model_other_ids blob model_id s r s' other :
  save_model deserialize blob model_id s = (r, s') →
  other ≠ model_id →
  model_cache s' !! other = model_cache s !! other ∧
  torch_model s' !! other = torch_model s !! other.
Proof.
  intros H Hne. destruct (save_model_effects _ _ _ _ _ H) as (_ & _ & Hm & Hc).
  split.
  - destruct Hc as [->|(b & m & _ & _ & _ & ->)]; [done|].
    by rewrite lookup_insert_ne.
  - destruct Hm as [->|[_ ->]]; [done|]. by rewrite lookup_insert_ne.
Qed.

(** A successful save ends on a clean session and leaves the object
    store alone. *)
Lemma save_model_success_frame blob model_id s res s1 :
  save_model deserialize blob model_id s = (Return res, s1) →
  success res = true →
  session s1 = [] ∧ objects s1 = objects s.
Proof.
  intros H Hok. rewrite save_model_blocks in H.
  destruct (model_cache s !! model_id) as [v|] eqn:Hc.
  { injection H as <- <-. discriminate. }
  unfold try_except in H.
  destruct (save_model_try deserialize blob model_id s) as [r0 s0] eqn:Htry.
  destruct (save_model_try_effects _ _ _ _ _ Hc Htry) as (Hs0 & Ho & _).
  destruct r0 as [a|e]; [by injection H as <- <-|].
  destruct (is_SQLAlchemyError e); [|discriminate].
  destruct (save_model_except_effects _ _ _ _ _ H) as [Hres _].
  rewrite (Hres _ eq_refl) in Hok. discriminate.
Qed.

(** X3. A model saved with success is found again after the cache has
    been dropped: on any node that has the same persistent store and no
    cache entry for the id, [get_model_with_id] queries the store,
    returns the model the saved blob decodes to, and caches it again. *)
Theorem save_evict_get_round_trip blob model_id s res s1 s2 :
  save_model deserialize blob model_id s = (Return res, s1) →
  success res = true →
  model_cache s2 !! model_id = None →
  torch_model s2 = torch_model s1 →
  torch_tensor s2 = torch_tensor s1 →
  ∃ m s3,
    deserialize blob = Some m ∧
    get_model_with_id deserialize model_id s2 =
      (Return (Success_model (VModel m)), s3) ∧
    model_cache s3 !! model_id = Some (VModel m) ∧
    db_calls s3 = db_calls s2 ++ [SessionRemove; QueryModelGet model_id]
                              ++ (QueryTensorGet <$> state_ids m).
Proof.
  intros Hsave Hok Hc Hms Hts.
  destruct (save_model_success_inv _ _ _ _ _ _ Hsave Hok)
    as (m & Hm & _ & _ & Hrow & Hstates).
  exists m. eexists. split; [done|]. split.
  - apply get_model_with_id_stored with blob; [done|by rewrite Hms|done|].
    intros sid Hin. destruct m as [body|ids body]; [by apply not_elem_of_nil in Hin|].
    destruct (Hstates eq_refl sid Hin) as (t & _ & Ht). rewrite Hts, Ht. by eexists.
  - cbn. by rewrite lookup_insert_eq.
Qed.

(** X4. Saving twice stays a duplicate across a cache eviction: after a
    successful save, on any node with the same persistent store and no
    cache entry for the id, a further [save_model] under the id returns
    a failure, leaves the first blob stored and puts the model of the
    first blob back in the cache. *)
Theorem save_after_eviction_still_duplicate blob blob2 model_id s res s1 s2 :
  save_model deserialize blob model_id s = (Return res, s1) →
  success res = true →
  model_cache s2 !! model_id = None →
  torch_model s2 = torch_model s1 →
  torch_tensor s2 = torch_tensor s1 →
  ∃ m err s3,
    deserialize blob = Some m ∧
    save_model deserialize blob2 model_id s2 = (Return (Failure err), s3) ∧
    torch_model s3 !! model_id = Some blob ∧
    model_cache s3 !! model_id = Some (VModel m).
Proof.
  intros Hsave Hok Hc Hms Hts.
  destruct (save_model_success_inv _ _ _ _ _ _ Hsave Hok)
    as (m & Hm & _ & _ & Hrow & Hstates).
  destruct (save_model_repairs_cache deserialize blob2 model_id s2 blob m)
    as (e & s3 & _ & Hrun & Hcache & Hstore & _);
    [done|by rewrite Hms|done| |].
  - intros sid Hin. destruct m as [body|ids body]; [by apply not_elem_of_nil in Hin|].
    destruct (Hstates eq_refl sid Hin) as (t & _ & Ht). rewrite Hts, Ht. by eexists.
  - exists m, (exc_str e), s3. split; [done|]. split; [done|].
    split; [by rewrite Hstore, Hms|done].
Qed.

(** X5. Right after a successful save, and also once the cache has been
    cleared after it, [list_models] returns a success whose ids contain
    the id saved. *)
Theorem save_then_listed blob model_id s res s1 :
  save_model deserialize blob model_id s = (Return res, s1) →
  success res = true →
  (∃ ids s3, list_models s1 = (Return (Success_models ids), s3) ∧ model_id ∈ ids) ∧
  (∃ ids s3, list_models (clear_cache s1).2 = (Return (Success_models ids), s3) ∧
             model_id ∈ ids).
Proof.
  intros Hsave Hok.
  destruct (save_model_success_inv _ _ _ _ _ _ Hsave Hok)
    as (m & _ & _ & _ & Hrow & _).
  assert (model_id ∈ (map_to_list (torch_model s1)).*1) as Hin.
  { apply list_elem_of_fmap. exists (model_id, blob). split; [done|].
    by apply elem_of_map_to_list. }
  split; eexists _, _; rewrite list_models_eq; (split; [done|]); exact Hin.
Qed.

(** *** Looking up and deleting *)

(** X6. [get_model_with_id] returns a failure result exactly for an id
    that is neither cached nor stored: a failure result is returned only
    for such an id, and for every such id the call returns the failure
    "Model not found", leaving the cache, both tables and the object
    store as they were.  (A stored record that cannot be loaded makes it
    raise instead.) *)
Theorem get_fails_iff_unknown model_id s :
  ((∃ err s', get_model_with_id deserialize model_id s =
                (Return (Failure err), s')) →
   model_cache s !! model_id = None ∧ torch_model s !! model_id = None) ∧
  (model_cache s !! model_id = None ∧ torch_model s !! model_id = None →
   get_model_with_id deserialize model_id s =
     (Return (Failure "Model not found"),
      mkNode (model_cache s) (torch_model s) (torch_tensor s) []
        (db_calls s ++ [SessionRemove; QueryModelGet model_id]) (objects s))).
Proof.
  split.
  - intros (err & s' & H).
    by destruct (get_model_with_id_effects _ _ _ _ H)
      as (_ & _ & _ & _ & [(v & Hv & _)|(_ & Hc & Hrow & _)]).
  - intros [Hc Hrow]. by apply get_model_with_id_absent.
Qed.

(** X7. Called right after a successful [save_model], [delete_model]
    always returns a result, a success exactly when a row is stored
    under the id; it removes that row and the cache entry of the id and
    nothing else: no other model row, no tensor row (those of a deleted
    Plan stay), no object. *)
Theorem delete_model_iff_stored blob0 id0 s0 res0 model_id s r s' :
  save_model deserialize blob0 id0 s0 = (Return res0, s) →
  success res0 = true →
  delete_model model_id s = (r, s') →
  (∃ res, r = Return res ∧
          (success res = true ↔ is_Some (torch_model s !! model_id))) ∧
  torch_model s' = delete model_id (torch_model s) ∧
  model_cache s' = delete model_id (model_cache s) ∧
  torch_tensor s' = torch_tensor s ∧ objects s' = objects s.
Proof.
  intros Hsave Hok H.
  destruct (save_model_success_frame _ _ _ _ _ Hsave Hok) as [Hclean _].
  destruct (delete_model_effects _ _ _ _ Hclean H)
    as (Hc & Ht & Ho & _ & [(Hrow & Hm & err & ->)|(Hrow & Hm & ->)]).
  - split; [|by rewrite delete_id].
    eexists. split; [done|]. cbn. rewrite Hrow. split; [done|].
    by intros [? ?].
  - split; [|done]. eexists. split; [done|]. done.
Qed.

(** *** An invariant of the node *)

Lemma coherent_handle s q :
  coherent deserialize s →
  coherent deserialize (handle deserialize s q) ∧
  torch_tensor s ⊆ torch_tensor (handle deserialize s q).
Proof.
  intros [Hclean Hcoh]. destruct q as [blob i|i|i| |]; cbn [handle].
  - destruct (save_model deserialize blob i s) as [r s'] eqn:H. cbn [snd].
    destruct (save_model_effects _ _ _ _ _ H) as (Ht & Hsess & Hm & Hc).
    split; [|done]. split; [destruct Hsess as [->|?]; done|].
    assert (torch_model s ⊆ torch_model s') as Hsub.
    { destruct Hm as [->|[Hnone ->]]; [done|]. by apply insert_subseteq. }
    intros j v Hj.
    destruct Hc as [Heq|(b & m & _ & Hb & Hdec & Heq)]; rewrite Heq in Hj.
    + destruct (Hcoh j v Hj) as (b & m & Hb & Hdec & ->).
      exists b, m. split; [|done]. by eapply lookup_weaken.
    + destruct (decide (j = i)) as [->|Hne].
      * rewrite lookup_insert_eq in Hj. injection Hj as <-. by exists b, m.
      * rewrite lookup_insert_ne in Hj by done.
        destruct (Hcoh j v Hj) as (b' & m' & Hb' & Hdec' & ->).
        exists b', m'. split; [|done]. by eapply lookup_weaken.
  - destruct (get_model_with_id deserialize i s) as [r s'] eqn:H. cbn [snd].
    destruct (get_model_with_id_effects _ _ _ _ H) as (Hm & Ht & Hsess & Hc & _).
    split; [|by rewrite Ht]. split; [destruct Hsess as [->|?]; done|].
    intros j v Hj. rewrite Hm.
    destruct Hc as [Heq|(b & m & _ & Hb & Hdec & Heq)]; rewrite Heq in Hj.
    + by apply Hcoh.
    + destruct (decide (j = i)) as [->|Hne].
      * rewrite lookup_insert_eq in Hj. injection Hj as <-. by exists b, m.
      * rewrite lookup_insert_ne in Hj by done. by apply Hcoh.
  - destruct (delete_model i s) as [r s'] eqn:H. cbn [snd].
    destruct (delete_model_effects _ _ _ _ Hclean H)
      as (Hc & Ht & _ & Hs' & Hrow).
    split; [|by rewrite Ht]. split; [done|].
    intros j v Hj. rewrite Hc in Hj.
    apply lookup_delete_Some in Hj as [Hne Hj].
    destruct (Hcoh j v Hj) as (b & m & Hb & Hdec & ->). exists b, m.
    split; [|done].
    destruct Hrow as [(_ & -> & _)|(_ & -> & _)]; [done|].
    by rewrite lookup_delete_ne.
  - rewrite list_models_eq. cbn. by split.
  - unfold clear_cache, modify, set_model_cache. cbn [snd torch_tensor].
    split; [|done]. split; [done|]. intros j v Hj.
    cbn [model_cache] in Hj. by rewrite lookup_empty in Hj.
Qed.

(** X8. Through any sequence of calls to [save_model],
    [get_model_with_id], [delete_model], [list_models] and
    [clear_cache], each returning or raising, the cache stays coherent
    with the store: what is cached under an id is the model that the
    blob stored under that id decodes to, and no row is left staged. *)
Theorem coherent_handle_all qs s :
  coherent deserialize s → coherent deserialize (handle_all deserialize qs s).
Proof.
  revert s. induction qs as [|q qs IH]; intros s Hs; [done|].
  cbn. apply IH. by apply coherent_handle.
Qed.

(** X9. Through any such sequence of calls, started on a coherent node,
    no tensor row is ever removed or changed; in particular deleting a
    Plan leaves its state tensors in the tensor table. *)
Theorem tensor_rows_persist qs s :
  coherent deserialize s →
  torch_tensor s ⊆ torch_tensor (handle_all deserialize qs s).
Proof.
  revert s. induction qs as [|q qs IH]; intros s Hs; [done|].
  cbn. destruct (coherent_handle s q Hs) as [Hs' Hsub].
  etrans; [exact Hsub|]. by apply IH.
Qed.

(** X10. On a coherent node, what [get_model_with_id] returns with
    success is the model that the blob stored under the id decodes to,
    whether it comes from the cache or from the store. *)
Theorem get_serves_stored_model model_id s v s' :
  coherent deserialize s →
  get_model_with_id deserialize model_id s = (Return (Success_model v), s') →
  ∃ b m, torch_model s !! model_id = Some b ∧ deserialize b = Some m ∧
         v = VModel m.
Proof.
  intros Hs H.
  destruct (coherent_handle s (ReqGet model_id) Hs) as [[_ Hcoh] _].
  cbn [handle] in Hcoh. rewrite H in Hcoh. cbn [snd] in Hcoh.
  destruct (get_model_with_id_effects _ _ _ _ H)
    as (Hm & _ & _ & _ & [(w & [= <-] & Hw)|(Hv & _)]); [|discriminate].
  rewrite <- Hm. by apply Hcoh.
Qed.

(** *** Saving a Plan again after it was deleted *)

Lemma flush_tensor_taken rows ms ts r :
  r ∈ rows → is_Some (ts !! tensor_row_id r) →
  flush (InsertTensor <$> rows) ms ts = None.
Proof.
  revert ts. induction rows as [|r0 rows IH]; intros ts Hin Hr.
  - by apply not_elem_of_nil in Hin.
  - cbn. destruct (ts !! tensor_row_id r0) eqn:Hr0; [done|].
    apply elem_of_cons in Hin as [->|Hin].
    + rewrite Hr0 in Hr. by destruct Hr.
    + apply IH; [done|].
      destruct (decide (tensor_row_id r0 = tensor_row_id r)) as [Heq|Hne].
      * rewrite Heq, lookup_insert_eq. by eexists.
      * by rewrite lookup_insert_ne.
Qed.

(** The end of [save_model] when everything goes through up to the
    commit of the tensor rows, and that commit fails. *)
Lemma tensor_commit_failure blob model_id s m :
  model_cache s !! model_id = None →
  torch_model s !! model_id = None →
  deserialize blob = Some m →
  isinstance_Plan m = true →
  (∀ sid, sid ∈ state_ids m → is_Some (objects s !! sid)) →
  flush (InsertTensor <$> state_rows (state_ids m) (objects s))
        (<[model_id := blob]> (torch_model s)) (torch_tensor s) = None →
  ∃ e s',
    is_SQLAlchemyError e = true ∧
    save_model deserialize blob model_id s = (Return (Failure (exc_str e)), s') ∧
    torch_model s' !! model_id = Some blob ∧
    model_cache s' !! model_id = Some (VModel m).
Proof.
  intros Hc Hrow Hm Hplan Hobjs Hflush.
  exists (mkExc IntegrityError "UNIQUE constraint failed"). eexists.
  split; [done|]. split.
  - rewrite save_model_blocks, Hc.
    unfold try_except, save_model_try, mbind, Py_bind, bind at 1.
    rewrite _save_model_in_db_eq, Hrow.
    unfold bind at 1, serde_deserialize. rewrite Hm. unfold ret at 1.
    unfold bind at 1. rewrite save_model_to_cache_fresh by done.
    rewrite Hplan. unfold bind at 1, _save_states_in_db, bind at 1.
    rewrite collect_states_ok by done.
    unfold mbind, Py_bind, bind at 1, session_add_all, modify, session_commit.
    cbn [set_model_cache set_session log_call session torch_model torch_tensor
         model_cache db_calls objects app].
    rewrite Hflush.
    cbn [is_SQLAlchemyError type_is_IntegrityError exc_class exc_str].
    unfold save_model_except, mbind, Py_bind.
    cbn [type_is_IntegrityError exc_class exc_str].
    unfold bind at 1. unfold bind at 1.
    erewrite get_model_with_id_cached; [|cbn; by rewrite lookup_insert_eq].
    cbn [truthy].
    erewrite save_model_to_cache_cached; [reflexivity|].
    cbn. by rewrite lookup_insert_eq.
  - cbn. by rewrite !lookup_insert_eq.
Qed.

(** X11. A Plan with state tensors that was saved and then deleted
    cannot be saved with success again: [delete_model] left its tensor
    rows behind, so the second save writes the model row, caches the
    Plan, fails on the commit of the tensor rows and returns a failure
    result. *)
Theorem resave_plan_after_delete_fails blob model_id s res s1 res2 s2 ids body :
  save_model deserialize blob model_id s = (Return res, s1) →
  success res = true →
  deserialize blob = Some (Plan ids body) →
  ids ≠ [] →
  delete_model model_id s1 = (Return res2, s2) →
  success res2 = true →
  ∃ e s3,
    is_SQLAlchemyError e = true ∧
    save_model deserialize blob model_id s2 = (Return (Failure (exc_str e)), s3) ∧
    torch_model s3 !! model_id = Some blob ∧
    model_cache s3 !! model_id = Some (VModel (Plan ids body)).
Proof.
  intros Hsave Hok Hplan Hids Hdel Hok2.
  destruct (save_model_success_inv _ _ _ _ _ _ Hsave Hok)
    as (m & Hm & _ & _ & _ & Hstates).
  rewrite Hplan in Hm. injection Hm as <-. specialize (Hstates eq_refl).
  cbn [state_ids] in Hstates.
  destruct (save_model_success_frame _ _ _ _ _ Hsave Hok) as [Hclean Hobj1].
  destruct (delete_model_effects _ _ _ _ Hclean Hdel)
    as (Hc2 & Ht2 & Ho2 & _ & [(_ & _ & err & [= ->])|(_ & Hm2 & _)]);
    [discriminate|].
  apply tensor_commit_failure; [| |done|done| |].
  - rewrite Hc2. apply lookup_delete_eq.
  - rewrite Hm2. apply lookup_delete_eq.
  - intros sid Hin. destruct (Hstates sid Hin) as (t & Ht & _).
    rewrite Ho2, Hobj1, Ht. by eexists.
  - destruct ids as [|sid ids]; [done|].
    destruct (Hstates sid) as (t & Hobj & Hrow); [by left|].
    apply flush_tensor_taken
      with (mkTorchTensor sid (default [] (objects s2 !! sid))).
    + unfold state_rows. cbn. by left.
    + cbn. rewrite Ht2, Hrow. by eexists.
Qed.

End WithCodec.

(** *** The properties on concrete nodes *)

Import Fixtures.

(** Saving another blob over the stored record of m1. *)
Lemma save_model_never_overwrites_witness :
  torch_model stored_plain ⊆
    torch_model (save_model codec plan_blob "m1" stored_plain).2 ∧
  torch_tensor stored_plain ⊆
    torch_tensor (save_model codec plan_blob "m1" stored_plain).2.
Proof.
  exact (save_model_never_overwrites codec plan_blob "m1" stored_plain _ _
           (surjective_pairing _)).
Defined.

Lemma save_model_other_ids_witness :
  model_cache (save_model codec plan_blob "p1" saved_plain).2 !! "m1" =
    model_cache saved_plain !! "m1" ∧
  torch_model (save_model codec plan_blob "p1" saved_plain).2 !! "m1" =
    torch_model saved_plain !! "m1".
Proof.
  apply (save_model_other_ids codec plan_blob "p1" saved_plain _ _ "m1"
           (surjective_pairing _)).
  discriminate.
Defined.

Lemma save_evict_get_round_trip_witness :
  ∃ m s3,
    codec plan_blob = Some m ∧
    get_model_with_id codec "p1"
        (clear_cache (save_model codec plan_blob "p1" with_tensors).2).2 =
      (Return (Success_model (VModel m)), s3) ∧
    model_cache s3 !! "p1" = Some (VModel m) ∧
    db_calls s3 =
      db_calls (clear_cache (save_model codec plan_blob "p1" with_tensors).2).2
        ++ [SessionRemove; QueryModelGet "p1"] ++ (QueryTensorGet <$> state_ids m).
Proof.
  apply (save_evict_get_round_trip codec plan_blob "p1" with_tensors
           (Success_message "Model saved with id: p1")
           (save_model codec plan_blob "p1" with_tensors).2);
    [vm_compute; reflexivity | reflexivity | reflexivity | reflexivity
    | reflexivity].
Defined.

Lemma save_after_eviction_still_duplicate_witness :
  ∃ m err s3,
    codec plain_blob = Some m ∧
    save_model codec plan_blob "m1" (clear_cache saved_plain).2 =
      (Return (Failure err), s3) ∧
    torch_model s3 !! "m1" = Some plain_blob ∧
    model_cache s3 !! "m1" = Some (VModel m).
Proof.
  apply (save_after_eviction_still_duplicate codec plain_blob plan_blob "m1"
           fresh (Success_message "Model saved with id: m1") saved_plain);
    [vm_compute; reflexivity | reflexivity | reflexivity | reflexivity
    | reflexivity].
Defined.

Lemma save_then_listed_witness :
  (∃ ids s3, list_models saved_plain = (Return (Success_models ids), s3) ∧
             "m1" ∈ ids) ∧
  (∃ ids s3,
     list_models (clear_cache saved_plain).2 = (Return (Success_models ids), s3) ∧
     "m1" ∈ ids).
Proof.
  apply (save_then_listed codec plain_blob "m1" fresh
           (Success_message "Model saved with id: m1") saved_plain);
    [vm_compute; reflexivity | reflexivity].
Defined.

(** An id never seen fails; a stored one does not. *)
Lemma get_fails_iff_unknown_witness :
  get_model_with_id codec "m2" saved_plain =
    (Return (Failure "Model not found"),
     mkNode (model_cache saved_plain) (torch_model saved_plain)
       (torch_tensor saved_plain) []
       (db_calls saved_plain ++ [SessionRemove; QueryModelGet "m2"])
       (objects saved_plain)) ∧
  ¬ (∃ err s', get_model_with_id codec "m1" stored_plain = (Return (Failure err), s')).
Proof.
  split.
  - apply (get_fails_iff_unknown codec "m2" saved_plain). split; reflexivity.
  - intros H. apply (get_fails_iff_unknown codec "m1" stored_plain) in H.
    destruct H as [_ H]. vm_compute in H. discriminate.
Defined.

Lemma delete_model_iff_stored_witness :
  (∃ res, (delete_model "m1" saved_plain).1 = Return res ∧
          (success res = true ↔ is_Some (torch_model saved_plain !! "m1"))) ∧
  torch_model (delete_model "m1" saved_plain).2 =
    delete "m1" (torch_model saved_plain) ∧
  model_cache (delete_model "m1" saved_plain).2 =
    delete "m1" (model_cache saved_plain) ∧
  torch_tensor (delete_model "m1" saved_plain).2 = torch_tensor saved_plain ∧
  objects (delete_model "m1" saved_plain).2 = objects saved_plain.
Proof.
  apply (delete_model_iff_stored codec plain_blob "m1" fresh
           (Success_message "Model saved with id: m1") "m1" saved_plain _ _);
    [vm_compute; reflexivity | reflexivity | apply surjective_pairing].
Defined.

Lemma fresh_coherent : Requests.coherent codec fresh.
Proof.
  split; [reflexivity|]. intros i v H.
  change (model_cache fresh) with (∅ : gmap string PyVal) in H.
  by rewrite lookup_empty in H.
Defined.

(** A session with a failing save, an eviction, a reload and a delete. *)
Lemma coherent_handle_all_witness :
  Requests.coherent codec
    (handle_all codec
       [ReqSave plain_blob "m1"; ReqSave bad_blob "m2"; ReqSave plan_blob "p1";
        ReqClearCache; ReqGet "m1"; ReqDelete "m2"; ReqList] fresh).
Proof.
  exact (coherent_handle_all codec _ fresh fresh_coherent).
Defined.

Lemma tensor_rows_persist_witness :
  torch_tensor stored_plan ⊆
    torch_tensor (handle_all codec [ReqGet "p1"; ReqDelete "p1"] stored_plan).
Proof.
  apply (tensor_rows_persist codec [ReqGet "p1"; ReqDelete "p1"] stored_plan).
  split; [reflexivity|]. intros i v H.
  change (model_cache stored_plan) with (∅ : gmap string PyVal) in H.
  by rewrite lookup_empty in H.
Defined.

Lemma get_serves_stored_model_witness :
  ∃ b m, torch_model stored_plain !! "m1" = Some b ∧ codec b = Some m ∧
         VModel (PlainModel [x2a]) = VModel m.
Proof.
  apply (get_serves_stored_model codec "m1" stored_plain
           (VModel (PlainModel [x2a]))
           (get_model_with_id codec "m1" stored_plain).2).
  - split; [reflexivity|]. intros i v H.
    change (model_cache stored_plain) with (∅ : gmap string PyVal) in H.
    by rewrite lookup_empty in H.
  - vm_compute. reflexivity.
Defined.

Lemma resave_plan_after_delete_fails_witness :
  ∃ e s3,
    is_SQLAlchemyError e = true ∧
    save_model codec plan_blob "p1"
        (delete_model "p1" (save_model codec plan_blob "p1" with_tensors).2).2 =
      (Return (Failure (exc_str e)), s3) ∧
    torch_model s3 !! "p1" = Some plan_blob ∧
    model_cache s3 !! "p1" = Some (VModel (Plan ["t1"; "t2"] [x2a])).
Proof.
  apply (resave_plan_after_delete_fails codec plan_blob "p1" with_tensors
           (Success_message "Model saved with id: p1")
           (save_model codec plan_blob "p1" with_tensors).2
           (Success_message "Model Deleted: p1"));
    [vm_compute; reflexivity | reflexivity | reflexivity | discriminate
    | vm_compute; reflexivity | reflexivity].
Defined.

End ModelManagerExtra.

(** * Further properties of the command relay *)

Module EventsExtra.
Import Binascii Events Aux EventsSpec.

(** *** The transport encoding, there and back *)

Lemma hex_byte b :
  hex_digit (digit_of_N (Byte.to_N b / 16)) = Some (Byte.to_N b / 16)%N ∧
  hex_digit (digit_of_N (Byte.to_N b mod 16)) = Some (Byte.to_N b mod 16)%N ∧
  byte_of_digits (Byte.to_N b / 16) (Byte.to_N b mod 16) = b ∧
  (N_of_ascii (digit_of_N (Byte.to_N b / 16)) <? 128)%N = true ∧
  (N_of_ascii (digit_of_N (Byte.to_N b mod 16)) <? 128)%N = true.
Proof. destruct b; vm_compute; by repeat split. Qed.

Lemma a2b_hex_hexlify bs : a2b_hex (hexlify bs) = Some bs.
Proof.
  induction bs as [|b bs IH]; [done|].
  destruct (hex_byte b) as (Hhi & Hlo & Hb & _).
  cbn [hexlify a2b_hex]. by rewrite Hhi, Hlo, IH, Hb.
Qed.

Lemma is_ascii_hexlify bs : is_ascii (hexlify bs) = true.
Proof.
  induction bs as [|b bs IH]; [done|].
  destruct (hex_byte b) as (_ & _ & _ & Hhi & Hlo).
  cbn [hexlify is_ascii]. by rewrite Hhi, Hlo, IH.
Qed.

Lemma length_hexlify bs : String.length (hexlify bs) = 2 * length bs.
Proof.
  induction bs as [|b bs IH]; [done|]. cbn [hexlify String.length length].
  rewrite IH. lia.
Qed.

(** X12. Decoding undoes encoding: [unhexlify (hexlify bs)] is [bs], for
    every byte string. *)
Theorem unhexlify_hexlify bs : unhexlify (hexlify bs) = inr bs.
Proof.
  unfold unhexlify.
  rewrite is_ascii_hexlify, length_hexlify, Nat.odd_even, a2b_hex_hexlify.
  reflexivity.
Qed.

Lemma substring_prefix h t : substring 0 (String.length h) (h +:+ t) = h.
Proof.
  induction h as [|c h IH].
  - by destruct t.
  - simpl. by f_equal.
Qed.

Lemma length_append_quote h : String.length (h +:+ "'") = S (String.length h).
Proof.
  induction h as [|c h IH]; [done|]. simpl. by f_equal.
Qed.

(** The slice takes the framing off again. *)
Lemma slice_framed h : slice_2_m1 (str_of_bytes h) = h.
Proof.
  unfold slice_2_m1, str_of_bytes.
  change ("b'" +:+ h +:+ "'") with (String "b" (String "'" (h +:+ "'"))).
  change (String.length (String "b" (String "'" (h +:+ "'"))))
    with (S (S (String.length (h +:+ "'")))).
  rewrite length_append_quote.
  replace (S (S (S (String.length h))) - 3) with (String.length h) by lia.
  change (substring 2 (String.length h) (String "b" (String "'" (h +:+ "'"))))
    with (substring 0 (String.length h) (h +:+ "'")).
  apply substring_prefix.
Qed.

Section WithWorker.
Variable Hook : Type.
Variable current_objects : Hook → gmap string Bytes.
Variable recover_objects : Py Hook unit.
Variable snapshot : Py Hook unit.
Variable _recv_msg : Bytes → Py Hook Bytes.

Local Abbreviation cmd := (cmd Hook current_objects recover_objects snapshot _recv_msg).
Local Abbreviation Relay := (Relay Hook).
Local Abbreviation cold_check := (cold_check current_objects recover_objects).
Local Abbreviation cold_calls := (cold_calls current_objects).

(** *** The relay, there and back *)

(** X13. The request and the response use one framing.  When the
    message text is [str(hexlify(bs))], the cold check goes through, the
    engine answers [resp] and the snapshot succeeds, the engine has been
    called on exactly [bs]; and the payload emitted, read the way the
    relay reads a message, is [resp]. *)
Theorem cmd_answers_framed_client message bs (s : Relay) h1 resp h2 h3 :
  message !! "message" = Some (str_of_bytes (hexlify bs)) →
  cold_check (hook _ s) = (Return tt, h1) →
  _recv_msg bs h1 = (Return resp, h2) →
  snapshot h2 = (Return tt, h3) →
  ∃ payload,
    cmd message s =
      (Return tt,
       mkRelay _ h3
         (calls _ s ++ cold_calls (hook _ s) ++ [CallRecvMsg bs; CallSnapshot])
         (emitted _ s ++ [("/cmd-response", payload)])) ∧
    unhexlify (slice_2_m1 payload) = inr resp.
Proof.
  intros Hmsg Hcold Hrecv Hsnap. exists (str_of_bytes (hexlify resp)). split.
  - rewrite cmd_unfold, cmd_body_run. cbv zeta.
    by rewrite Hcold, Hmsg, slice_framed, unhexlify_hexlify, Hrecv, Hsnap.
  - by rewrite slice_framed, unhexlify_hexlify.
Qed.

(** *** The order of the calls *)

(** X14. While handling one command the relay calls its collaborators in
    a fixed order, each at most once: recovery if the store is cold,
    then the engine, then the snapshot; there is no snapshot without an
    execution before it. *)
Theorem cmd_call_order message (s : Relay) :
  ∃ tail,
    calls _ (cmd message s).2 = calls _ s ++ cold_calls (hook _ s) ++ tail ∧
    (tail = [] ∨ ∃ bs, tail = [CallRecvMsg bs] ∨
                       tail = [CallRecvMsg bs; CallSnapshot]).
Proof.
  rewrite cmd_unfold, cmd_body_run. cbv zeta.
  destruct (cold_check (hook _ s)) as [[[]|e] h1].
  2: { exists []. rewrite app_nil_r. by auto. }
  destruct (message !! "message") as [encoded|].
  2: { exists []. rewrite app_nil_r. by auto. }
  destruct (unhexlify (slice_2_m1 encoded)) as [e|bs].
  { exists []. rewrite app_nil_r. by auto. }
  destruct (_recv_msg bs h1) as [[resp|e] h2].
  2: { exists [CallRecvMsg bs]. by eauto. }
  destruct (snapshot h2) as [[[]|e] h3];
    exists [CallRecvMsg bs; CallSnapshot]; by eauto.
Qed.

(** *** Failures after the cold check *)

(** X15. When the engine raises, the response is the text of its
    exception and no snapshot is taken, while what the engine did to the
    worker before raising stays. *)
Theorem cmd_engine_failure message encoded bs (s : Relay) h1 e h2 :
  message !! "message" = Some encoded →
  cold_check (hook _ s) = (Return tt, h1) →
  unhexlify (slice_2_m1 encoded) = inr bs →
  _recv_msg bs h1 = (Raise e, h2) →
  cmd message s =
    (Return tt,
     mkRelay _ h2 (calls _ s ++ cold_calls (hook _ s) ++ [CallRecvMsg bs])
       (emitted _ s ++ [("/cmd-response", exc_str e)])).
Proof.
  intros Hmsg Hcold Hdec Hrecv. rewrite cmd_unfold, cmd_body_run. cbv zeta.
  by rewrite Hcold, Hmsg, Hdec, Hrecv.
Qed.

(** X16. When the command was executed and the snapshot raises, the
    response is the text of the snapshot's exception: the answer of the
    engine is not sent, although its effects on the worker stay. *)
Theorem cmd_snapshot_failure message encoded bs (s : Relay) h1 resp h2 e h3 :
  message !! "message" = Some encoded →
  cold_check (hook _ s) = (Return tt, h1) →
  unhexlify (slice_2_m1 encoded) = inr bs →
  _recv_msg bs h1 = (Return resp, h2) →
  snapshot h2 = (Raise e, h3) →
  cmd message s =
    (Return tt,
     mkRelay _ h3
       (calls _ s ++ cold_calls (hook _ s) ++ [CallRecvMsg bs; CallSnapshot])
       (emitted _ s ++ [("/cmd-response", exc_str e)])).
Proof.
  intros Hmsg Hcold Hdec Hrecv Hsnap. rewrite cmd_unfold, cmd_body_run. cbv zeta.
  by rewrite Hcold, Hmsg, Hdec, Hrecv, Hsnap.
Qed.

(** X17. A message without the key "message" is answered with the text
    of the KeyError, after the cold check and without any call to the
    engine or the snapshot. *)
Theorem cmd_missing_message_key message (s : Relay) h1 :
  message !! "message" = None →
  cold_check (hook _ s) = (Return tt, h1) →
  cmd message s =
    (Return tt,
     mkRelay _ h1 (calls _ s ++ cold_calls (hook _ s))
       (emitted _ s ++ [("/cmd-response", "'message'")])).
Proof.
  intros Hmsg Hcold. rewrite cmd_unfold, cmd_body_run. cbv zeta.
  by rewrite Hcold, Hmsg.
Qed.

End WithWorker.

(** *** The properties on a concrete worker *)

Import Fixtures.

Lemma cmd_answers_framed_client_witness :
  ∃ payload,
    Events.cmd _ (λ h, h) recover snapshot engine
        {[ "message" := str_of_bytes (hexlify [x68; x69]) ]} warm =
      (Return tt,
       mkRelay _ {[ "x" := [x01]; "last" := [x68; x69] ]}
         (calls _ warm ++ cold_calls (λ h, h) (hook _ warm)
            ++ [CallRecvMsg [x68; x69]; CallSnapshot])
         (emitted _ warm ++ [("/cmd-response", payload)])) ∧
    unhexlify (slice_2_m1 payload) = inr [x69; x68].
Proof.
  apply (cmd_answers_framed_client _ (λ h, h) recover snapshot engine
           {[ "message" := str_of_bytes (hexlify [x68; x69]) ]} [x68; x69] warm
           {[ "x" := [x01] ]} [x69; x68]
           {[ "x" := [x01]; "last" := [x68; x69] ]});
    [apply lookup_singleton_eq | reflexivity | vm_compute; reflexivity
    | reflexivity].
Defined.

Lemma cmd_engine_failure_witness :
  Events.cmd _ (λ h, h) recover snapshot broken_engine
      {[ "message" := "b'6869'" ]} warm =
    (Return tt,
     mkRelay _ {[ "x" := [x01] ]}
       (calls _ warm ++ cold_calls (λ h, h) (hook _ warm)
          ++ [CallRecvMsg [x68; x69]])
       (emitted _ warm ++ [("/cmd-response", "unknown command")])).
Proof.
  apply (cmd_engine_failure _ (λ h, h) recover snapshot broken_engine
           {[ "message" := "b'6869'" ]} "b'6869'" [x68; x69] warm
           {[ "x" := [x01] ]} (mkExc PyException "unknown command"));
    [apply lookup_singleton_eq | reflexivity | vm_compute; reflexivity
    | reflexivity].
Defined.

Lemma cmd_snapshot_failure_witness :
  Events.cmd _ (λ h, h) recover (raise (mkExc PyException "disk full")) engine
      {[ "message" := "b'6869'" ]} warm =
    (Return tt,
     mkRelay _ {[ "x" := [x01]; "last" := [x68; x69] ]}
       (calls _ warm ++ cold_calls (λ h, h) (hook _ warm)
          ++ [CallRecvMsg [x68; x69]; CallSnapshot])
       (emitted _ warm ++ [("/cmd-response", "disk full")])).
Proof.
  apply (cmd_snapshot_failure _ (λ h, h) recover
           (raise (mkExc PyException "disk full")) engine
           {[ "message" := "b'6869'" ]} "b'6869'" [x68; x69] warm
           {[ "x" := [x01] ]} [x69; x68]
           {[ "x" := [x01]; "last" := [x68; x69] ]}
           (mkExc PyException "disk full"));
    [apply lookup_singleton_eq | reflexivity | vm_compute; reflexivity
    | vm_compute; reflexivity | reflexivity].
Defined.

Lemma cmd_missing_message_key_witness :
  Events.cmd _ (λ h, h) recover snapshot engine {[ "msg" := "b'6869'" ]} cold =
    (Return tt,
     mkRelay _ {[ "recovered" := [] ]}
       (calls _ cold ++ cold_calls (λ h, h) (hook _ cold))
       (emitted _ cold ++ [("/cmd-response", "'message'")])).
Proof.
  apply (cmd_missing_message_key _ (λ h, h) recover snapshot engine
           {[ "msg" := "b'6869'" ]} cold {[ "recovered" := [] ]});
    [vm_compute; reflexivity | vm_compute; reflexivity].
Defined.

End EventsExtra.

(** * Properties of the node registry *)

Module RegistrySpec.
Import Registry.

Section WithWorker.
Variable Hook : Type.
Variable Client : Type.
Variable _known_workers : Hook → gset string.
Variable WebsocketGridClient : string → string → Py Hook Client.
Variable connect : Client → Py Hook unit.

Local Abbreviation connect_node :=
  (connect_node Hook Client _known_workers WebsocketGridClient connect).
Local Abbreviation Node := (Node Hook).

(** The handler, step by step. *)
Lemma connect_node_run msg (s : Node) :
  connect_node msg s =
    let fail e h cs :=
      (Return tt,
       mkNode _ h cs (emitted _ s ++ [("/connect-node-response", exc_str e)])) in
    match msg !! "id" with
    | None => fail (mkExc PyException "'id'") (hook _ s) (calls _ s)
    | Some id =>
        if bool_decide (id ∈ _known_workers (hook _ s)) then (Return tt, s)
        else
          match msg !! "uri" with
          | None => fail (mkExc PyException "'uri'") (hook _ s) (calls _ s)
          | Some uri =>
              match WebsocketGridClient uri id (hook _ s) with
              | (Raise e, h1) => fail e h1 (calls _ s ++ [CallNewClient uri id])
              | (Return c, h1) =>
                  match connect c h1 with
                  | (Raise e, h2) =>
                      fail e h2 (calls _ s ++ [CallNewClient uri id; CallConnect])
                  | (Return _, h2) =>
                      (Return tt,
                       mkNode _ h2 (calls _ s ++ [CallNewClient uri id; CallConnect])
                         (emitted _ s ++
                            [("/connect-node-response", "Succefully connected!")]))
                  end
              end
          end
    end.
Proof.
  destruct s as [h cs out].
  unfold Registry.connect_node, Registry.connect_node_body, try_except, mbind,
    Py_bind, bind, call, emit, getitem, gets, modify, ret, raise.
  cbn [hook calls emitted].
  destruct (msg !! "id") as [id|]; [|done]. cbn [hook calls emitted].
  destruct (bool_decide (id ∈ _known_workers h)); cbn [negb]; [done|].
  destruct (msg !! "uri") as [uri|]; [|done]. cbn [hook calls emitted].
  destruct (WebsocketGridClient uri id h) as [[c|e] h1]; cbn [hook calls emitted];
    [|done].
  destruct (connect c h1) as [[[]|e] h2]; cbn [hook calls emitted];
    by rewrite <- ?app_assoc.
Qed.

(** X18. Connecting to a peer that is already known does nothing at
    all: no client is made, nothing is emitted, the node is unchanged. *)
Theorem connect_node_known_peer msg id (s : Node) :
  msg !! "id" = Some id →
  id ∈ _known_workers (hook _ s) →
  connect_node msg s = (Return tt, s).
Proof.
  intros Hid Hknown. rewrite connect_node_run. cbv zeta.
  by rewrite Hid, bool_decide_eq_true_2.
Qed.

(** X19. Connecting to a peer that is not known makes one client for
    the uri and id of the message and connects it; if both succeed, the
    response is "Succefully connected!". *)
Theorem connect_node_new_peer msg id uri (s : Node) c h1 h2 :
  msg !! "id" = Some id →
  id ∉ _known_workers (hook _ s) →
  msg !! "uri" = Some uri →
  WebsocketGridClient uri id (hook _ s) = (Return c, h1) →
  connect c h1 = (Return tt, h2) →
  connect_node msg s =
    (Return tt,
     mkNode _ h2 (calls _ s ++ [CallNewClient uri id; CallConnect])
       (emitted _ s ++ [("/connect-node-response", "Succefully connected!")])).
Proof.
  intros Hid Hnew Huri Hmake Hconn. rewrite connect_node_run. cbv zeta.
  by rewrite Hid, bool_decide_eq_false_2, Huri, Hmake, Hconn.
Qed.

(** X20. [connect_node] never raises.  It emits nothing when the peer is
    known and exactly one response otherwise, and it makes at most one
    client. *)
Theorem connect_node_never_raises msg (s : Node) :
  ∃ s', connect_node msg s = (Return tt, s') ∧
    ((∃ id, msg !! "id" = Some id ∧ id ∈ _known_workers (hook _ s) ∧ s' = s) ∨
     (∃ payload made,
        emitted _ s' = emitted _ s ++ [("/connect-node-response", payload)] ∧
        calls _ s' = calls _ s ++ made ∧
        (made = [] ∨ ∃ uri id, msg !! "id" = Some id ∧ msg !! "uri" = Some uri ∧
                               (made = [CallNewClient uri id] ∨
                                made = [CallNewClient uri id; CallConnect])))).
Proof.
  rewrite connect_node_run. cbv zeta.
  destruct (msg !! "id") as [id|] eqn:Hid.
  2: { eexists. split; [done|]. right. exists "'id'", [].
       cbn. rewrite app_nil_r. by auto. }
  destruct (bool_decide_reflect (id ∈ _known_workers (hook _ s))) as [Hk|Hk].
  { eexists. split; [done|]. left. by eauto. }
  destruct (msg !! "uri") as [uri|] eqn:Huri.
  2: { eexists. split; [done|]. right. exists "'uri'", [].
       cbn. rewrite app_nil_r. by auto. }
  destruct (WebsocketGridClient uri id (hook _ s)) as [[c|e] h1].
  2: { eexists. split; [done|]. right. exists (exc_str e), [CallNewClient uri id].
       cbn. split; [done|]. split; [done|]. right. by eauto 10. }
  destruct (connect c h1) as [[[]|e] h2];
    (eexists; split; [done|]); right.
  - exists "Succefully connected!", [CallNewClient uri id; CallConnect].
    cbn. split; [done|]. split; [done|]. right. by eauto 10.
  - exists (exc_str e), [CallNewClient uri id; CallConnect].
    cbn. split; [done|]. split; [done|]. right. by eauto 10.
Qed.

(** X21. When the client cannot be made, or cannot connect, the response
    is the text of the exception; a client that could not be made is
    not connected. *)
Theorem connect_node_failure msg id uri (s : Node) e h1 :
  msg !! "id" = Some id →
  id ∉ _known_workers (hook _ s) →
  msg !! "uri" = Some uri →
  (WebsocketGridClient uri id (hook _ s) = (Raise e, h1) →
   connect_node msg s =
     (Return tt,
      mkNode _ h1 (calls _ s ++ [CallNewClient uri id])
        (emitted _ s ++ [("/connect-node-response", exc_str e)]))) ∧
  (∀ c h0,
     WebsocketGridClient uri id (hook _ s) = (Return c, h0) →
     connect c h0 = (Raise e, h1) →
     connect_node msg s =
       (Return tt,
        mkNode _ h1 (calls _ s ++ [CallNewClient uri id; CallConnect])
          (emitted _ s ++ [("/connect-node-response", exc_str e)]))).
Proof.
  intros Hid Hnew Huri. split.
  - intros Hmake. rewrite connect_node_run. cbv zeta.
    by rewrite Hid, bool_decide_eq_false_2, Huri, Hmake.
  - intros c h0 Hmake Hconn. rewrite connect_node_run. cbv zeta.
    by rewrite Hid, bool_decide_eq_false_2, Huri, Hmake, Hconn.
Qed.

End WithWorker.

(** *** The properties on a concrete registry *)

Import RegistryFixtures.

Local Abbreviation bob := ({[ "id" := "bob"; "uri" := "ws://bob" ]} : gmap string string).

Lemma connect_node_known_peer_witness :
  Registry.connect_node _ _ (λ h, h) new_client connect bob knows_bob =
    (Return tt, knows_bob).
Proof.
  apply (connect_node_known_peer _ _ (λ h, h) new_client connect bob "bob"
           knows_bob); [reflexivity|]. set_solver.
Defined.

Lemma connect_node_new_peer_witness :
  Registry.connect_node _ _ (λ h, h) new_client connect bob alone =
    (Return tt,
     mkNode _ ({[ "bob" ]} ∪ ∅)
       (calls _ alone ++ [CallNewClient "ws://bob" "bob"; CallConnect])
       (emitted _ alone ++ [("/connect-node-response", "Succefully connected!")])).
Proof.
  apply (connect_node_new_peer _ _ (λ h, h) new_client connect bob "bob"
           "ws://bob" alone "bob" ({[ "bob" ]} ∪ ∅) ({[ "bob" ]} ∪ ∅));
    [reflexivity | set_solver | reflexivity | reflexivity | reflexivity].
Defined.

Lemma connect_node_failure_witness :
  Registry.connect_node _ _ (λ h, h) unreachable connect bob alone =
    (Return tt,
     mkNode _ ∅ (calls _ alone ++ [CallNewClient "ws://bob" "bob"])
       (emitted _ alone ++ [("/connect-node-response", "connection refused")])).
Proof.
  destruct (connect_node_failure _ _ (λ h, h) unreachable connect bob "bob"
              "ws://bob" alone (mkExc PyException "connection refused") ∅)
    as [Hmake _]; [reflexivity | set_solver | reflexivity |].
  apply Hmake. reflexivity.
Defined.

End RegistrySpec.
